(** * Odds aggregation and value detection of python_bet

    A shallow embedding of the three functions of the repository that carry
    logic:

    - [BrasilOddsMonitor._calcular_melhores_odds]  (src/bet_brasil.py)
    - [BrasilOddsMonitor._analisar_valor_odds]     (src/bet_brasil.py)
    - [BetMonitor.analyze_trend]                   (src/code_no_api.py)

    Numbers.  The prices are JSON numbers; they are modelled as exact
    rationals [Q], with Python's [/] raising [ZeroDivisionError] on a zero
    divisor.  Rounding, infinities and NaN of binary floating point are
    outside this model: it follows the code on prices whose reciprocals are
    positive finite floats ([na_faixa]), up to rounding.  The analysis has a
    second model over binary64 numbers ([_analisar_valor_odds_f]), in which
    the reciprocal of a price beyond the range is 0.0 and the division by a
    sum of such reciprocals raises.

    Dictionaries.  A dictionary with free keys (the [resultado] and
    [over_under] tables of a bookmaker, a snapshot of the scraper) is a
    [gmap string _]; [d.get(k)] is the lookup [d !! k], and a key bound to
    [None] is the same as an absent key, which [.get] cannot tell apart.
    A dictionary with a fixed set of keys is a record. *)

From Stdlib Require Import ZArith QArith Qabs Lqa Lia Floats.
From stdpp Require Import base option list strings gmap pretty.

Local Open Scope Q_scope.
Local Open Scope string_scope.

(** ** Python values and operators *)

(** Truth value of the result of [d.get(k)] on a table of numbers: [None]
    and zero are false, every other number is true. *)
Definition truthy (v : option Q) : bool :=
  match v with
  | Some q => negb (Qeq_bool q 0)
  | None => false
  end.

(** [a > b] on numbers. *)
Definition gt (a b : Q) : bool := negb (Qle_bool a b).

(** [a < b] on numbers. *)
Definition lt (a b : Q) : bool := negb (Qle_bool b a).

(** What a call may raise. *)
Inductive excecao : Type := ZeroDivisionError | KeyError.

(** Outcome of a call: the value returned, or the exception raised. *)
Inductive py (A : Type) : Type :=
  | Retorna (a : A)
  | Levanta (e : excecao).
Arguments Retorna {A} a.
Arguments Levanta {A} e.

Definition py_bind {A B : Type} (x : py A) (f : A -> py B) : py B :=
  match x with
  | Retorna a => f a
  | Levanta e => Levanta e
  end.

Notation "x <- e ;; k" := (py_bind e (fun x => k))
  (at level 100, e at next level, right associativity).

(** [a / b] on exact numbers: a zero divisor raises, and the quotient is
    the exact one.  The quotient Python computes on floats is [div_f]: it is
    rounded, and it is 0.0 for a dividend of 1 and a divisor beyond the
    range of binary64. *)
Definition div (a b : Q) : py Q :=
  if Qeq_bool b 0 then Levanta ZeroDivisionError else Retorna (a / b).

(** [sum(l)]: starts from 0 and adds from the left. *)
Definition sum (l : list Q) : Q := fold_left Qplus l 0.

(** An object a consumer reads out of a result dictionary. *)
Inductive objeto : Type :=
  | PyNone
  | PyNum (q : Q)
  | PyStr (s : string).

(** ** Data model of src/bet_brasil.py *)

(** One bookmaker entry of [casas_apostas], as [_processar_jogos_brasileiros]
    builds it: [mercados] maps "resultado" and "over_under" to a table from
    outcome name to price. *)
Record casa_info : Type := CasaInfo {
  nome : string;
  key : string;
  atualizacao : string;
  mercados : gmap string (gmap string Q)
}.

(** The keys of the [melhores] dictionary. *)
Inductive mercado : Type := casa | empate | fora | over_25 | under_25.

#[global] Instance mercado_eq_dec : EqDecision mercado.
Proof. solve_decision. Defined.

(** One value of the [melhores] dictionary: [{'odd': _, 'casa_aposta': _}]. *)
Record melhor : Type := Melhor {
  odd : Q;
  casa_aposta : string
}.

(** The [melhores] dictionary: one entry per key, always. *)
Record melhores_odds : Type := MelhoresOdds {
  m_casa : melhor;
  m_empate : melhor;
  m_fora : melhor;
  m_over_25 : melhor;
  m_under_25 : melhor
}.

(** [melhores[k]] *)
Definition item (m : melhores_odds) (k : mercado) : melhor :=
  match k with
  | casa => m_casa m
  | empate => m_empate m
  | fora => m_fora m
  | over_25 => m_over_25 m
  | under_25 => m_under_25 m
  end.

(** [melhores[k] = b] *)
Definition set_item (m : melhores_odds) (k : mercado) (b : melhor) : melhores_odds :=
  match k with
  | casa => MelhoresOdds b (m_empate m) (m_fora m) (m_over_25 m) (m_under_25 m)
  | empate => MelhoresOdds (m_casa m) b (m_fora m) (m_over_25 m) (m_under_25 m)
  | fora => MelhoresOdds (m_casa m) (m_empate m) b (m_over_25 m) (m_under_25 m)
  | over_25 => MelhoresOdds (m_casa m) (m_empate m) (m_fora m) b (m_under_25 m)
  | under_25 => MelhoresOdds (m_casa m) (m_empate m) (m_fora m) (m_over_25 m) b
  end.

(** What a consumer reads with [melhores[k].get(campo)]. *)
Definition melhor_get (b : melhor) (campo : string) : objeto :=
  if decide (campo = "odd") then PyNum (odd b)
  else if decide (campo = "casa_aposta") then PyStr (casa_aposta b)
  else PyNone.

(** ** [_calcular_melhores_odds] *)

(** The dictionary [melhores] starts from: price 0 and an empty bookmaker
    name under each key. *)
Definition melhores_inicial : melhores_odds :=
  let vazio := Melhor 0 "" in
  MelhoresOdds vazio vazio vazio vazio vazio.

(** The key looked up by the test that guards the home price:
    [casa['nome'] == 'home' and 'home_team' or casa['nome'] == 'away' and
    'away_team' or casa['nome']]. *)
Definition chave_guarda (c : casa_info) : string :=
  if decide (nome c = "home") then "home_team"
  else if decide (nome c = "away") then "away_team"
  else nome c.

(** The block the loop repeats per outcome:
    [if odd and odd > melhores[k]['odd']: melhores[k] = {'odd': odd,
    'casa_aposta': casa['nome']}], with [odd] the result of a [.get]. *)
Definition atualizar (m : melhores_odds) (k : mercado) (v : option Q)
    (c : casa_info) : melhores_odds :=
  match v with
  | Some o =>
      if truthy (Some o) && gt o (odd (item m k))
      then set_item m k (Melhor o (nome c))
      else m
  | None => m
  end.

(** The body of [for casa in casas_apostas]. *)
Definition passo (m : melhores_odds) (c : casa_info) : melhores_odds :=
  let resultado := default ∅ (mercados c !! "resultado") in
  let m :=
    if truthy (resultado !! chave_guarda c)
    then atualizar m casa (resultado !! "home") c
    else m in
  let m := atualizar m fora (resultado !! "away") c in
  let m := atualizar m empate (resultado !! "draw") c in
  let over_under := default ∅ (mercados c !! "over_under") in
  let m := atualizar m over_25 (over_under !! "Over 2.5") c in
  let m := atualizar m under_25 (over_under !! "Under 2.5") c in
  m.

Definition _calcular_melhores_odds (casas_apostas : list casa_info) : melhores_odds :=
  fold_left passo casas_apostas melhores_inicial.

(** ** [_analisar_valor_odds] *)

(** One entry of [analise['value_bets']]. *)
Record value_bet : Type := ValueBet {
  vb_mercado : string;
  vb_odd : Q;
  vb_probabilidade : string;
  vb_casa_aposta : string
}.

(** The dictionary [analise]. *)
Record analise : Type := Analise {
  value_bets : list value_bet;
  margem_mercado : Q;
  recomendacao : string
}.

(** What a consumer reads with [analise.get('margem_mercado')]. *)
Definition margem_get (a : analise) : objeto := PyNum (margem_mercado a).

(** The list both loops run over: [['casa', 'empate', 'fora']]. *)
Definition mercados_resultado : list mercado := [casa; empate; fora].

(** The first loop: the raw implied probability [1 / odd] of every key
    whose best price is positive, appended in order. *)
Fixpoint coletar (melhores : melhores_odds) (l : list mercado)
    (odds_validas : list Q) : py (list Q) :=
  match l with
  | [] => Retorna odds_validas
  | k :: l =>
      if gt (odd (item melhores k)) 0
      then r <- div 1 (odd (item melhores k)) ;;
           coletar melhores l (odds_validas ++ [r])
      else coletar melhores l odds_validas
  end.

(** [prob_implicita = 1 / odd] *)
Definition prob_implicita (o : Q) : py Q := div 1 o.

(** [prob_ajustada = prob_implicita / sum(odds_validas)] *)
Definition prob_ajustada (odds_validas : list Q) (o : Q) : py Q :=
  p <- prob_implicita o ;; div p (sum odds_validas).

(** The dictionary literal indexed by [mercado] in the second loop; it has
    the three result keys only. *)
Definition nome_mercado (k : mercado) : py string :=
  match k with
  | casa => Retorna "Vitória Casa"
  | empate => Retorna "Empate"
  | fora => Retorna "Vitória Fora"
  | _ => Levanta KeyError
  end.

(** Nearest integer to [a / b] for [0 <= a], halves to the even side. *)
Definition arredondar (a : Z) (b : positive) : Z :=
  let q := (a / Zpos b)%Z in
  let r := (a mod Zpos b)%Z in
  if ((Zpos b <? 2 * r) || ((2 * r =? Zpos b) && Z.odd q))%Z
  then (q + 1)%Z else q.

(** The format [f"{p:.1%}"]: percent with one decimal. *)
Definition formato_pct1 (p : Q) : string :=
  let n := arredondar (Z.abs (Qnum p) * 1000) (Qden p) in
  (if (Qnum p <? 0)%Z then "-" else "")
    ++ pretty (n / 10)%Z ++ "." ++ pretty (n mod 10)%Z ++ "%".

(** The threshold written in the source. *)
Definition limiar : Q := 0.6.

(** The second loop: a key with a positive best price whose adjusted
    probability is above 0.6 adds an entry. *)
Fixpoint detectar (melhores : melhores_odds) (odds_validas : list Q)
    (l : list mercado) (value_bets : list value_bet) : py (list value_bet) :=
  match l with
  | [] => Retorna value_bets
  | k :: l =>
      let o := odd (item melhores k) in
      if gt o 0
      then p <- prob_ajustada odds_validas o ;;
           if gt p limiar
           then n <- nome_mercado k ;;
                detectar melhores odds_validas l
                  (value_bets ++
                     [ValueBet n o (formato_pct1 p) (casa_aposta (item melhores k))])
           else detectar melhores odds_validas l value_bets
      else detectar melhores odds_validas l value_bets
  end.

(** [if analise['value_bets']: ... else: ...] *)
Definition recomendar (value_bets : list value_bet) : string :=
  match value_bets with
  | [] => "⚡ Aguardando melhores oportunidades"
  | _ => "🎯 " ++ pretty (length value_bets) ++ " VALUE BET(S) IDENTIFICADO(S)"
  end.

Definition _analisar_valor_odds (melhores_odds : melhores_odds) : py analise :=
  odds_validas <- coletar melhores_odds mercados_resultado [] ;;
  match odds_validas with
  | [] => Retorna (Analise [] 0 (recomendar []))
  | _ =>
      let margem := (sum odds_validas - 1) * 100 in
      vbs <- detectar melhores_odds odds_validas mercados_resultado [] ;;
      Retorna (Analise vbs margem (recomendar vbs))
  end.

(** ** [_analisar_valor_odds] on binary64 prices

    The same function with the prices as IEEE 754 binary64 numbers, the
    numbers Python computes with: [/] rounds to nearest and raises
    [ZeroDivisionError] on a zero divisor, the comparisons are the IEEE
    ones, and [sum] adds from the left starting at 0 (CPython before 3.12;
    later versions compensate the rounding errors, which gives the same sum
    for a list of one or two numbers).  An integer price is taken as the
    float of the same value. *)

(** One value of [melhores_odds], with a binary64 price. *)
Record melhor_f : Type := MelhorF {
  odd_f : float;
  casa_aposta_f : string
}.

(** [a > b] *)
Definition gt_f (a b : float) : bool := PrimFloat.ltb b a.

(** [a / b] *)
Definition div_f (a b : float) : py float :=
  if PrimFloat.eqb b 0%float
  then Levanta ZeroDivisionError
  else Retorna (PrimFloat.div a b).

(** [sum(l)] *)
Definition sum_f (l : list float) : float := fold_left PrimFloat.add l 0%float.

(** The exact value of a finite binary64 number. *)
Definition Q_de_float (x : float) : option Q :=
  match Prim2SF x with
  | S754_zero _ => Some 0
  | S754_finite s m e =>
      Some ((if s then -1 else 1) * inject_Z (Zpos m) *
            (if (0 <=? e)%Z then inject_Z (2 ^ e) else / inject_Z (2 ^ (- e))))
  | S754_infinity _ => None
  | S754_nan => None
  end.

(** The format [f"{p:.1%}"] of a binary64 number: the exact value rounded
    to one decimal of a percent. *)
Definition formato_pct1_f (p : float) : string :=
  match Q_de_float p with
  | Some q => formato_pct1 q
  | None =>
      if PrimFloat.is_nan p then "nan%"
      else if PrimFloat.ltb p 0%float then "-inf%" else "inf%"
  end.

Record value_bet_f : Type := ValueBetF {
  vf_mercado : string;
  vf_odd : float;
  vf_probabilidade : string;
  vf_casa_aposta : string
}.

Record analise_f : Type := AnaliseF {
  value_bets_f : list value_bet_f;
  margem_mercado_f : float;
  recomendacao_f : string
}.

(** The threshold written in the source, [0.6]: the nearest binary64
    number, a little below 3/5. *)
Definition limiar_f : float := 0.6%float.

Fixpoint coletar_f (melhores : mercado -> melhor_f) (l : list mercado)
    (odds_validas : list float) : py (list float) :=
  match l with
  | [] => Retorna odds_validas
  | k :: l =>
      if gt_f (odd_f (melhores k)) 0%float
      then r <- div_f 1%float (odd_f (melhores k)) ;;
           coletar_f melhores l (odds_validas ++ [r])
      else coletar_f melhores l odds_validas
  end.

Definition prob_ajustada_f (odds_validas : list float) (o : float) : py float :=
  p <- div_f 1%float o ;; div_f p (sum_f odds_validas).

Fixpoint detectar_f (melhores : mercado -> melhor_f) (odds_validas : list float)
    (l : list mercado) (value_bets : list value_bet_f) : py (list value_bet_f) :=
  match l with
  | [] => Retorna value_bets
  | k :: l =>
      let o := odd_f (melhores k) in
      if gt_f o 0%float
      then p <- prob_ajustada_f odds_validas o ;;
           if gt_f p limiar_f
           then n <- nome_mercado k ;;
                detectar_f melhores odds_validas l
                  (value_bets ++
                     [ValueBetF n o (formato_pct1_f p) (casa_aposta_f (melhores k))])
           else detectar_f melhores odds_validas l value_bets
      else detectar_f melhores odds_validas l value_bets
  end.

Definition recomendar_f (value_bets : list value_bet_f) : string :=
  match value_bets with
  | [] => "⚡ Aguardando melhores oportunidades"
  | _ => "🎯 " ++ pretty (length value_bets) ++ " VALUE BET(S) IDENTIFICADO(S)"
  end.

Definition _analisar_valor_odds_f (melhores_odds : mercado -> melhor_f) : py analise_f :=
  odds_validas <- coletar_f melhores_odds mercados_resultado [] ;;
  match odds_validas with
  | [] => Retorna (AnaliseF [] 0%float (recomendar_f []))
  | _ =>
      let margem :=
        PrimFloat.mul (PrimFloat.sub (sum_f odds_validas) 1%float) 100%float in
      vbs <- detectar_f melhores_odds odds_validas mercados_resultado [] ;;
      Retorna (AnaliseF vbs margem (recomendar_f vbs))
  end.

(** ** Data model of src/code_no_api.py *)

(** One entry of [odds_history], as [parse_odds] builds it: the prices under
    "home", "draw" and "away", and the time of the observation. *)
Record snapshot : Type := Snapshot {
  odds : gmap string Q;
  timestamp : Z
}.

(** [odds.get(market)] *)
Definition get (s : snapshot) (market : string) : option Q := odds s !! market.

(** What [analyze_trend] prints: the header, then one line per market with
    the values its format string is filled with,
    [f"{market}: {current[market]} ({trend} {abs(change):.2f})"]. *)
Inductive saida : Type :=
  | Cabecalho
  | Linha (market : string) (price : Q) (trend : string) (abs_change : Q).

(** ** [analyze_trend] *)

(** [change = current[market] - previous[market]] *)
Definition change (c p : Q) : Q := c - p.

(** [trend = "↑" if change > 0 else "↓" if change < 0 else "→"] *)
Definition trend (change : Q) : string :=
  if gt change 0 then "↑" else if lt change 0 then "↓" else "→".

(** The body of [for market in ['home', 'draw', 'away']]. *)
Definition linha_mercado (current previous : snapshot) (market : string) : list saida :=
  match get current market, get previous market with
  | Some c, Some p =>
      if truthy (Some c) && truthy (Some p)
      then [Linha market c (trend (change c p)) (Qabs (change c p))]
      else []
  | _, _ => []
  end.

(** [(odds_history[-2], odds_history[-1])], when there are two entries. *)
Fixpoint ultimos (odds_history : list snapshot) : option (snapshot * snapshot) :=
  match odds_history with
  | [] => None
  | [_] => None
  | [previous; current] => Some (previous, current)
  | _ :: l => ultimos l
  end.

(** The comparison of two snapshots: the loop over the three markets. *)
Definition compare (current previous : snapshot) : list saida :=
  flat_map (linha_mercado current previous) ["home"; "draw"; "away"].

Definition analyze_trend (odds_history : list snapshot) : list saida :=
  match ultimos odds_history with
  | None => []
  | Some (previous, current) => Cabecalho :: compare current previous
  end.

(** * The rest of src/bet_brasil.py *)

(** ** The response of the odds service *)

(** The JSON objects of a response.  A field is [None] when the object has
    no such key; JSON [null] values are not modelled. *)
Record resultado_bruto : Type := ResultadoBruto {
  rb_name : option string;
  rb_price : option Q
}.

Record mercado_bruto : Type := MercadoBruto {
  mb_key : option string;
  mb_outcomes : option (list resultado_bruto)
}.

Record casa_bruta : Type := CasaBruta {
  cb_title : option string;
  cb_key : option string;
  cb_last_update : option string;
  cb_markets : option (list mercado_bruto)
}.

Record jogo_bruto : Type := JogoBruto {
  jb_sport_title : option string;
  jb_home_team : option string;
  jb_away_team : option string;
  jb_commence_time : option string;
  jb_bookmakers : option (list casa_bruta)
}.

(** [d[k]]: an absent key raises [KeyError]. *)
Definition getitem {A : Type} (v : option A) : py A :=
  match v with
  | Some a => Retorna a
  | None => Levanta KeyError
  end.

(** ** [_processar_jogos_brasileiros] *)

(** One element of [jogos_processados]. *)
Record info_jogo : Type := InfoJogo {
  j_campeonato : string;
  j_titulo_campeonato : string;
  j_time_casa : string;
  j_time_fora : string;
  j_data_hora : string;
  j_timestamp_coleta : string;
  j_casas_apostas : list casa_info;
  j_melhores_odds : melhores_odds;
  j_analise_valor : analise
}.

(** [for resultado in mercado['outcomes']:
       resultados[resultado['name']] = resultado['price']];
    the right-hand side is evaluated before the subscript. *)
Fixpoint preencher (outcomes : list resultado_bruto) (resultados : gmap string Q)
    : py (gmap string Q) :=
  match outcomes with
  | [] => Retorna resultados
  | resultado :: outcomes =>
      price <- getitem (rb_price resultado) ;;
      name <- getitem (rb_name resultado) ;;
      preencher outcomes (<[name := price]> resultados)
  end.

(** [for mercado in casa.get('markets', [])]: an "h2h" market sets the
    table under "resultado", a "totals" market the one under "over_under",
    any other market is skipped. *)
Fixpoint processar_mercados (markets : list mercado_bruto)
    (mercados : gmap string (gmap string Q)) : py (gmap string (gmap string Q)) :=
  match markets with
  | [] => Retorna mercados
  | mercado :: markets =>
      k <- getitem (mb_key mercado) ;;
      if decide (k = "h2h")
      then outcomes <- getitem (mb_outcomes mercado) ;;
           resultados <- preencher outcomes ∅ ;;
           processar_mercados markets (<["resultado" := resultados]> mercados)
      else if decide (k = "totals")
      then outcomes <- getitem (mb_outcomes mercado) ;;
           over_under <- preencher outcomes ∅ ;;
           processar_mercados markets (<["over_under" := over_under]> mercados)
      else processar_mercados markets mercados
  end.

(** The body of [for casa in jogo.get('bookmakers', [])]. *)
Definition processar_casa (casa : casa_bruta) : py casa_info :=
  mercados <- processar_mercados (default [] (cb_markets casa)) ∅ ;;
  Retorna (CasaInfo (default "" (cb_title casa)) (default "" (cb_key casa))
                    (default "" (cb_last_update casa)) mercados).

Fixpoint processar_casas (bookmakers : list casa_bruta) (casas_apostas : list casa_info)
    : py (list casa_info) :=
  match bookmakers with
  | [] => Retorna casas_apostas
  | c :: bookmakers =>
      info <- processar_casa c ;;
      processar_casas bookmakers (casas_apostas ++ [info])
  end.

(** The body of [for jogo in dados_brutos]; [agora] is the value of
    [datetime.now().isoformat()] for this game. *)
Definition processar_jogo (jogo : jogo_bruto) (campeonato agora : string) : py info_jogo :=
  casas <- processar_casas (default [] (jb_bookmakers jogo)) [] ;;
  let melhores := _calcular_melhores_odds casas in
  analise_valor <- _analisar_valor_odds melhores ;;
  Retorna (InfoJogo campeonato
             (default "" (jb_sport_title jogo))
             (default "" (jb_home_team jogo))
             (default "" (jb_away_team jogo))
             (default "" (jb_commence_time jogo))
             agora casas melhores analise_valor).

(** The loop over the games; [agora i] is the clock reading for game [i]. *)
Fixpoint processar_jogos (dados_brutos : list jogo_bruto) (campeonato : string)
    (agora : nat -> string) (i : nat) (jogos_processados : list info_jogo)
    : py (list info_jogo) :=
  match dados_brutos with
  | [] => Retorna jogos_processados
  | jogo :: dados_brutos =>
      info <- processar_jogo jogo campeonato (agora i) ;;
      processar_jogos dados_brutos campeonato agora (S i) (jogos_processados ++ [info])
  end.

Definition _processar_jogos_brasileiros (dados_brutos : list jogo_bruto)
    (campeonato : string) (agora : nat -> string) : py (list info_jogo) :=
  processar_jogos dados_brutos campeonato agora 0 [].

(** ** [testar_api] and [obter_jogos_ao_vivo] *)

(** What [session.get] gives back: a response with its status code and JSON
    body, or [None] when the request raises. *)
Record resposta : Type := Resposta {
  status_code : Z;
  json : list jogo_bruto
}.

Definition testar_api (r : option resposta) : bool :=
  match r with
  | Some r => if decide (status_code r = 200%Z) then true else false
  | None => false
  end.

(** [None] is the [None] the method returns on a status other than 200 and
    on any exception, the ones of the processing included. *)
Definition obter_jogos_ao_vivo (r : option resposta) (campeonato_key : string)
    (agora : nat -> string) : option (list info_jogo) :=
  match r with
  | Some r =>
      if decide (status_code r = 200%Z)
      then match _processar_jogos_brasileiros (json r) campeonato_key agora with
           | Retorna jogos => Some jogos
           | Levanta _ => None
           end
      else None
  | None => None
  end.

(** ** [salvar_dados_brasileiros] *)

(** One row of the table written to the CSV file. *)
Record linha_csv : Type := LinhaCsv {
  l_data_coleta : string;
  l_campeonato : string;
  l_time_casa : string;
  l_time_fora : string;
  l_data_jogo : string;
  l_casa_aposta : string;
  l_odd_casa : option Q;
  l_odd_empate : option Q;
  l_odd_fora : option Q;
  l_odd_over_25 : option Q;
  l_odd_under_25 : option Q
}.

(** [casa['mercados'].get(tabela, {}).get(chave)] *)
Definition get_odd (casa : casa_info) (tabela chave : string) : option Q :=
  default ∅ (mercados casa !! tabela) !! chave.

(** The list [linhas]: one row per bookmaker of every game of the history. *)
Definition linhas (odds_history : list info_jogo) : list linha_csv :=
  flat_map (fun jogo =>
    map (fun casa =>
      LinhaCsv (j_timestamp_coleta jogo) (j_titulo_campeonato jogo)
               (j_time_casa jogo) (j_time_fora jogo) (j_data_hora jogo)
               (nome casa)
               (get_odd casa "resultado" "home")
               (get_odd casa "resultado" "draw")
               (get_odd casa "resultado" "away")
               (get_odd casa "over_under" "Over 2.5")
               (get_odd casa "over_under" "Under 2.5"))
      (j_casas_apostas jogo))
    odds_history.

(** What the monitor does to the outside: it shows a batch of games, writes
    a CSV file, reports that there is nothing to write, or sleeps. *)
Inductive evento : Type :=
  | Exibe (jogos : list info_jogo)
  | EscreveCsv (nome_arquivo : string) (tabela : list linha_csv)
  | NadaParaSalvar
  | Dorme (segundos : Z).

(** [carimbo] is [datetime.now().strftime('%Y%m%d_%H%M')] at the call. *)
Definition salvar_dados_brasileiros (odds_history : list info_jogo) (carimbo : string)
    : list evento :=
  match odds_history with
  | [] => [NadaParaSalvar]
  | _ => [EscreveCsv ("odds_brasileiro_" ++ carimbo ++ ".csv") (linhas odds_history)]
  end.

(** ** [monitorar_campeonato_brasileiro] *)

(** How a run ends: it completes, or [time.sleep] rejects a negative
    length with [ValueError].  A length too large for [timedelta] or for
    [time.sleep] is outside this model. *)
Inductive fim : Type := Concluido | SleepNegativo.

(** The state of a run: the history and the events so far. *)
Record monitor : Type := Monitor {
  odds_history : list info_jogo;
  eventos : list evento
}.

(** The block [if jogos: ...] of iteration [iteracao]: a batch that is
    neither [None] nor empty is shown, appended to the history and, on an
    even iteration, followed by a save.  The display and the save are taken
    to return: this is the block of a run that goes on.  The display formats
    every positive best price with [.2f], which raises on an integer too
    large for a float; prices in range ([jogo_ok]) are formatted. *)
Definition registrar (iteracao : nat) (jogos : option (list info_jogo))
    (carimbo : string) (s : monitor) : monitor :=
  match jogos with
  | Some (j :: js) =>
      let historia := (odds_history s ++ j :: js)%list in
      Monitor historia
        (eventos s ++ [Exibe (j :: js)] ++
         (if decide (Z.of_nat iteracao mod 2 = 0)%Z
          then salvar_dados_brasileiros historia carimbo
          else []))%list
  | _ => s
  end.

(** [time.sleep(intervalo_minutos * 60)] *)
Definition dormir (intervalo_minutos : Z) (s : monitor) : monitor :=
  Monitor (odds_history s) (eventos s ++ [Dorme (intervalo_minutos * 60)])%list.

(** The body of [for iteracao in range(iteracoes)], from iteration
    [iteracao] on, [restantes] iterations to go.  [respostas i] is what the
    request of iteration [i] gives back. *)
Fixpoint iterar (restantes : nat) (iteracao : nat) (iteracoes : Z)
    (campeonato_key : string) (intervalo_minutos : Z)
    (respostas : nat -> option resposta) (agora : nat -> nat -> string)
    (carimbo : nat -> string) (s : monitor) : monitor * fim :=
  match restantes with
  | O => (s, Concluido)
  | S restantes =>
      let jogos := obter_jogos_ao_vivo (respostas iteracao) campeonato_key (agora iteracao) in
      let s := registrar iteracao jogos (carimbo iteracao) s in
      if decide (Z.of_nat iteracao < iteracoes - 1)%Z
      then if decide (intervalo_minutos * 60 < 0)%Z
           then (s, SleepNegativo)
           else iterar restantes (S iteracao) iteracoes campeonato_key intervalo_minutos
                  respostas agora carimbo (dormir intervalo_minutos s)
      else iterar restantes (S iteracao) iteracoes campeonato_key intervalo_minutos
             respostas agora carimbo s
  end.

(** [teste] is what the request of [testar_api] gives back; [carimbo_final]
    the clock reading of the last save. *)
Definition monitorar_campeonato_brasileiro (campeonato_key : string)
    (intervalo_minutos iteracoes : Z) (teste : option resposta)
    (respostas : nat -> option resposta) (agora : nat -> nat -> string)
    (carimbo : nat -> string) (carimbo_final : string) (s : monitor) : monitor * fim :=
  if testar_api teste
  then match iterar (Z.to_nat iteracoes) 0 iteracoes campeonato_key intervalo_minutos
                 respostas agora carimbo s with
       | (s, Concluido) =>
           (Monitor (odds_history s)
              (eventos s ++ salvar_dados_brasileiros (odds_history s) carimbo_final)%list,
            Concluido)
       | (s, SleepNegativo) => (s, SleepNegativo)
       end
  else (s, Concluido).

(** * The rest of src/code_no_api.py *)

(** ** [monitor_odds] *)

(** What the scraping monitor does to the outside: [display_current_odds]
    of a reading, the lines [analyze_trend] prints, and [time.sleep]. *)
Inductive sinal : Type :=
  | Mostra (odds : snapshot)
  | Tendencia (linhas : list saida)
  | Pausa (segundos : Z).

(** The monitor object: [self.odds_history], and what it has done so far. *)
Record bet_monitor : Type := BetMonitor {
  bm_odds_history : list snapshot;
  sinais : list sinal
}.

(** [max_iterations and iteration >= max_iterations]: [None] and 0 are
    false, so the test never holds for them. *)
Definition parar (max_iterations : option Z) (iteration : nat) : bool :=
  match max_iterations with
  | Some n => negb (n =? 0)%Z && (n <=? Z.of_nat iteration)%Z
  | None => false
  end.

(** The block [if html: odds = ...; if odds: ...] of one iteration;
    [leitura] is the snapshot [parse_odds] returns, [None] when the page
    could not be fetched or parsed. *)
Definition anotar (leitura : option snapshot) (s : bet_monitor) : bet_monitor :=
  match leitura with
  | Some odds =>
      let historia := (bm_odds_history s ++ [odds])%list in
      BetMonitor historia
        (sinais s ++ [Mostra odds; Tendencia (analyze_trend historia)])%list
  | None => s
  end.

(** How the scraping loop ends: by the test on [max_iterations], or by
    [time.sleep] raising [ValueError] on a negative length or
    [OverflowError] on a length above the largest one it accepts. *)
Inductive fim_laco : Type := Parou | SleepValueError | SleepOverflowError.

(** [while True: ...] from iteration [iteration] on.  The loop has no
    bound of its own: [fuel] bounds the number of iterations looked at, and
    [None] means that the loop is still running when it is used up.
    [max_sleep] is the largest length [time.sleep] accepts (in CPython the
    length is held in 64-bit nanoseconds, about 9.2e9 seconds). *)
Fixpoint laco (fuel : nat) (max_sleep : Z) (leituras : nat -> option snapshot)
    (interval_minutes : Z) (max_iterations : option Z) (iteration : nat)
    (s : bet_monitor) : option (bet_monitor * fim_laco) :=
  match fuel with
  | O => None
  | S fuel =>
      if parar max_iterations iteration
      then Some (s, Parou)
      else
        let s := anotar (leituras iteration) s in
        if decide (interval_minutes * 60 < 0)%Z
        then Some (s, SleepValueError)
        else if decide (max_sleep < interval_minutes * 60)%Z
        then Some (s, SleepOverflowError)
        else laco fuel max_sleep leituras interval_minutes max_iterations (S iteration)
               (BetMonitor (bm_odds_history s)
                  (sinais s ++ [Pausa (interval_minutes * 60)])%list)
  end.

Definition monitor_odds (fuel : nat) (max_sleep : Z) (leituras : nat -> option snapshot)
    (interval_minutes : Z) (max_iterations : option Z) (s : bet_monitor)
    : option (bet_monitor * fim_laco) :=
  laco fuel max_sleep leituras interval_minutes max_iterations 0 s.

(** * Notions used in the statements *)

(** ** Bookmakers and quotes *)

(** A bookmaker entry with the given name and tables. *)
Definition bookmaker (n : string) (resultado over_under : list (string * Q)) : casa_info :=
  CasaInfo n n ""
    (<["resultado" := list_to_map resultado]>
       (<["over_under" := list_to_map over_under]> ∅)).

(** The tables of a bookmaker, as the loop body reads them. *)
Definition resultado_de (c : casa_info) : gmap string Q :=
  default ∅ (mercados c !! "resultado").

Definition over_under_de (c : casa_info) : gmap string Q :=
  default ∅ (mercados c !! "over_under").

(** The quote of bookmaker [c] for the outcome behind key [k]. *)
Definition cotacao (c : casa_info) (k : mercado) : option Q :=
  match k with
  | casa => resultado_de c !! "home"
  | empate => resultado_de c !! "draw"
  | fora => resultado_de c !! "away"
  | over_25 => over_under_de c !! "Over 2.5"
  | under_25 => over_under_de c !! "Under 2.5"
  end.

(** The quote the loop body looks at: for [casa] the quote counts only
    when the guard on [chave_guarda] holds. *)
Definition candidata (c : casa_info) (k : mercado) : option Q :=
  match k with
  | casa => if truthy (resultado_de c !! chave_guarda c) then cotacao c casa else None
  | _ => cotacao c k
  end.

(** The effect of one bookmaker on the entry of one key. *)
Definition escolher (b : melhor) (v : option Q) (n : string) : melhor :=
  match v with
  | Some o => if truthy (Some o) && gt o (odd b) then Melhor o n else b
  | None => b
  end.

(** The entry of key [k] after the bookmakers of [l], starting from [b]. *)
Definition vencedor (k : mercado) (l : list casa_info) (b : melhor) : melhor :=
  fold_left (fun b c => escolher b (candidata c k) (nome c)) l b.

(** No bookmaker of [l] quotes the outcome behind [k]. *)
Definition sem_cotacao (l : list casa_info) (k : mercado) : Prop :=
  forall c, c ∈ l -> cotacao c k = None.

(** The scenario of the specification: BookA quotes home 2.00 and draw 3.20,
    BookB quotes home 2.10 and away 3.50. *)
Definition cenario : list casa_info :=
  [bookmaker "BookA" [("home", 2.00); ("draw", 3.20)] [];
   bookmaker "BookB" [("home", 2.10); ("away", 3.50)] []].

(** Two bookmakers quoting the same home price. *)
Definition empate_de_precos : list casa_info :=
  [bookmaker "BookA" [("home", 2.00)] []; bookmaker "BookB" [("home", 2.00)] []].

(** ** The two loops of the analysis *)

(** The raw implied probability the first loop appends for key [k]. *)
Definition bruta (m : melhores_odds) (k : mercado) : list Q :=
  if gt (odd (item m k)) 0 then [1 / odd (item m k)] else [].

(** The entry the second loop appends for key [k]. *)
Definition aposta (m : melhores_odds) (odds_validas : list Q) (k : mercado) : list value_bet :=
  let o := odd (item m k) in
  if gt o 0 && gt (1 / o / sum odds_validas) limiar
  then [ValueBet (match nome_mercado k with Retorna n => n | Levanta _ => "" end)
          o (formato_pct1 (1 / o / sum odds_validas)) (casa_aposta (item m k))]
  else [].

(** No key of the result market has a positive best price. *)
Definition sem_preco (m : melhores_odds) : Prop :=
  forall k, k ∈ mercados_resultado -> odd (item m k) <= 0.

(** ** Snapshots *)

(** A snapshot of one bookmaker. *)
Definition instantaneo (l : list (string * Q)) (t : Z) : snapshot :=
  Snapshot (list_to_map l) t.

(** ** Raw responses *)

(** An outcome with both its name and its price. *)
Definition resultado_completo (r : resultado_bruto) : bool :=
  bool_decide (is_Some (rb_name r)) && bool_decide (is_Some (rb_price r)).

(** A market the processing can read: it has a key, and when the key is
    "h2h" or "totals" it has outcomes, all of them complete. *)
Definition mercado_legivel (m : mercado_bruto) : bool :=
  match mb_key m with
  | None => false
  | Some k =>
      if bool_decide (k = "h2h") || bool_decide (k = "totals")
      then match mb_outcomes m with
           | None => false
           | Some outcomes => forallb resultado_completo outcomes
           end
      else true
  end.

Definition casa_legivel (c : casa_bruta) : bool :=
  forallb mercado_legivel (default [] (cb_markets c)).

Definition jogo_legivel (j : jogo_bruto) : bool :=
  forallb casa_legivel (default [] (jb_bookmakers j)).

(** The market key and the outcome name the aggregator reads a key of
    [melhores] from. *)
Definition origem (k : mercado) : string * string :=
  match k with
  | casa => ("h2h", "home")
  | empate => ("h2h", "draw")
  | fora => ("h2h", "away")
  | over_25 => ("totals", "Over 2.5")
  | under_25 => ("totals", "Under 2.5")
  end.

(** Some market of kind [tipo] of some bookmaker of the game has an
    outcome named [n]. *)
Definition nomeia (jogo : jogo_bruto) (tipo n : string) : Prop :=
  exists c m r,
    c ∈ default [] (jb_bookmakers jogo) /\
    m ∈ default [] (cb_markets c) /\ mb_key m = Some tipo /\
    r ∈ default [] (mb_outcomes m) /\ rb_name r = Some n.

(** The batch iteration [i] of the championship monitor adds to the
    history: nothing when the fetch gives [None]. *)
Definition lote (respostas : nat -> option resposta) (campeonato_key : string)
    (agora : nat -> nat -> string) (i : nat) : list info_jogo :=
  default [] (obter_jogos_ao_vivo (respostas i) campeonato_key (agora i)).

Definition e_dorme (e : evento) : bool :=
  match e with Dorme _ => true | _ => false end.

Definition e_pausa (e : sinal) : bool :=
  match e with Pausa _ => true | _ => false end.

(** A game as the odds service sends it: the outcomes of the "h2h" market
    are named after the teams and "Draw", those of the "totals" market
    "Over" and "Under". *)
Definition jogo_api : jogo_bruto :=
  JogoBruto (Some "Brazil Série A") (Some "Flamengo") (Some "Palmeiras")
    (Some "2025-05-04T19:00:00Z")
    (Some [CasaBruta (Some "Bet365") (Some "bet365") (Some "2025-05-04T12:00:00Z")
             (Some [MercadoBruto (Some "h2h")
                      (Some [ResultadoBruto (Some "Flamengo") (Some 2.10);
                             ResultadoBruto (Some "Palmeiras") (Some 3.50);
                             ResultadoBruto (Some "Draw") (Some 3.20)]);
                    MercadoBruto (Some "totals")
                      (Some [ResultadoBruto (Some "Over") (Some 1.90);
                             ResultadoBruto (Some "Under") (Some 1.95)])])]).

(** The entry the processing builds for [jogo_api]. *)
Definition info_api : info_jogo :=
  InfoJogo "soccer_brazil_campeonato" "Brazil Série A" "Flamengo" "Palmeiras"
    "2025-05-04T19:00:00Z" "2025-05-04T12:00:01"
    [CasaInfo "Bet365" "bet365" "2025-05-04T12:00:00Z"
       (<["over_under" := <["Under" := 1.95]> (<["Over" := 1.90]> ∅)]>
          (<["resultado" := <["Draw" := 3.20]> (<["Palmeiras" := 3.50]>
                              (<["Flamengo" := 2.10]> ∅))]> ∅))]
    melhores_inicial
    (Analise [] 0 "⚡ Aguardando melhores oportunidades").

(** A successful response with [jogo_api] as its only game, and clock
    readings for a run. *)
Definition resposta_api : option resposta := Some (Resposta 200 [jogo_api]).

Definition relogio_exemplo : nat -> nat -> string := fun _ _ => "2025-05-04T12:00:01".

Definition carimbo_exemplo : nat -> string := fun _ => "20250504_1200".

(** The lines of the trend report that are about [market]. *)
Definition linha_de (market : string) (s : saida) : bool :=
  match s with
  | Cabecalho => false
  | Linha m _ _ _ => bool_decide (m = market)
  end.

(** ** Binary64 prices *)

(** The reciprocals of the positive prices of home, draw and away, in this
    order. *)
Definition reciprocos_f (m : mercado -> melhor_f) : list float :=
  flat_map (fun k => if gt_f (odd_f (m k)) 0%float
                     then [PrimFloat.div 1%float (odd_f (m k))] else [])
    mercados_resultado.

(** The normalised probability of key [k] as Python computes it: the
    reciprocal of its price over the sum of the reciprocals. *)
Definition parte_f (m : mercado -> melhor_f) (k : mercado) : float :=
  PrimFloat.div (PrimFloat.div 1%float (odd_f (m k))) (sum_f (reciprocos_f m)).

(** The same prices as exact numbers. *)
Definition exato (m : mercado -> melhor_f) : melhores_odds :=
  let e k := Melhor (default 0 (Q_de_float (odd_f (m k)))) (casa_aposta_f (m k)) in
  MelhoresOdds (e casa) (e empate) (e fora) (e over_25) (e under_25).

(** The normalised probability of key [k] in exact arithmetic. *)
Definition parte_exata (m : melhores_odds) (k : mercado) : Q :=
  1 / odd (item m k) / sum (flat_map (bruta m) mercados_resultado).

(** Home at 2.0 and draw at 3.0, away unpriced: the exact share of home is
    3/5. *)
Definition dois_precos : mercado -> melhor_f :=
  fun k => match k with
           | casa => MelhorF 2%float "BookA"
           | empate => MelhorF 3%float "BookB"
           | _ => MelhorF 0%float ""
           end.

(** Home at infinity, the float a JSON number such as 1e999 is read as. *)
Definition preco_infinito : mercado -> melhor_f :=
  fun k => match k with
           | casa => MelhorF infinity "BookA"
           | _ => MelhorF 0%float ""
           end.

(** The entry the second loop appends for key [k], on binary64 prices. *)
Definition aposta_f (m : mercado -> melhor_f) (odds_validas : list float) (k : mercado)
    : list value_bet_f :=
  let o := odd_f (m k) in
  let p := PrimFloat.div (PrimFloat.div 1%float o) (sum_f odds_validas) in
  if gt_f o 0%float && gt_f p limiar_f
  then [ValueBetF (match nome_mercado k with Retorna n => n | Levanta _ => "" end)
          o (formato_pct1_f p) (casa_aposta_f (m k))]
  else [].

(** The analysis of [dois_precos]. *)
Definition analise_dois_precos : analise_f :=
  AnaliseF [ValueBetF "Vitória Casa" 2%float "60.0%" "BookA"]
    (PrimFloat.mul (PrimFloat.sub (sum_f (reciprocos_f dois_precos)) 1%float) 100%float)
    "🎯 1 VALUE BET(S) IDENTIFICADO(S)".

(** ** Prices in the range of binary64 *)

(** A price whose reciprocal is a positive finite binary64 number, with
    room for a sum of three: between 1e-300 and 1e300. *)
Definition preco_max : Q := inject_Z (10 ^ 300).

Definition na_faixa (p : Q) : bool :=
  Qle_bool (/ preco_max) p && Qle_bool p preco_max.

(** A price the aggregator can pass on to the analysis is in range: a
    price that is zero or negative never becomes a best price. *)
Definition preco_ok (p : Q) : bool := Qle_bool p 0 || na_faixa p.

Definition resultado_ok (r : resultado_bruto) : bool :=
  match rb_price r with
  | Some p => preco_ok p
  | None => true
  end.

Definition mercado_ok (m : mercado_bruto) : bool :=
  forallb resultado_ok (default [] (mb_outcomes m)).

Definition casa_ok (c : casa_bruta) : bool :=
  forallb mercado_ok (default [] (cb_markets c)).

(** Every price of the game is in range. *)
Definition jogo_ok (j : jogo_bruto) : bool :=
  forallb casa_ok (default [] (jb_bookmakers j)).

(** * Properties *)

(** ** Comparisons *)

Lemma gt_lt (a b : Q) : gt a b = true <-> b < a.
Proof.
  unfold gt. rewrite negb_true_iff, <- not_true_iff_false, Qle_bool_iff.
  split; [apply Qnot_le_lt | apply Qlt_not_le].
Qed.

Lemma gt_le (a b : Q) : gt a b = false <-> a <= b.
Proof. unfold gt. rewrite negb_false_iff. apply Qle_bool_iff. Qed.

Lemma lt_lt (a b : Q) : lt a b = true <-> a < b.
Proof. apply gt_lt. Qed.

Lemma truthy_Some (q : Q) : truthy (Some q) = true <-> ~ q == 0.
Proof.
  simpl. rewrite negb_true_iff, <- not_true_iff_false, Qeq_bool_iff. reflexivity.
Qed.

Lemma truthy_pos (q : Q) : 0 < q -> truthy (Some q) = true.
Proof. intros H. apply truthy_Some. intros E. rewrite E in H. lra. Qed.

(** ** The aggregator, one key at a time *)

Lemma item_set_item (m : melhores_odds) (k k' : mercado) (b : melhor) :
  item (set_item m k b) k' = if decide (k = k') then b else item m k'.
Proof. destruct k, k'; reflexivity. Qed.

Lemma item_atualizar (m : melhores_odds) (k k' : mercado) (v : option Q) (c : casa_info) :
  item (atualizar m k v c) k' =
  if decide (k = k') then escolher (item m k) v (nome c) else item m k'.
Proof.
  unfold atualizar, escolher. destruct v as [o|].
  - destruct (truthy (Some o) && gt o (odd (item m k))).
    + rewrite item_set_item. reflexivity.
    + destruct (decide (k = k')) as [->|]; reflexivity.
  - destruct (decide (k = k')) as [->|]; reflexivity.
Qed.

Lemma item_passo (m : melhores_odds) (c : casa_info) (k : mercado) :
  item (passo m c) k = escolher (item m k) (candidata c k) (nome c).
Proof.
  unfold passo. fold (resultado_de c). fold (over_under_de c).
  destruct (truthy (resultado_de c !! chave_guarda c)) eqn:G;
    destruct k; rewrite ?item_atualizar; simpl; rewrite ?G; reflexivity.
Qed.

Lemma item_fold (l : list casa_info) (m : melhores_odds) (k : mercado) :
  item (fold_left passo l m) k = vencedor k l (item m k).
Proof.
  revert m. induction l as [|c l IH]; intros m; simpl; [reflexivity|].
  rewrite IH, item_passo. reflexivity.
Qed.

Lemma item_calcular (l : list casa_info) (k : mercado) :
  item (_calcular_melhores_odds l) k = vencedor k l (Melhor 0 "").
Proof. unfold _calcular_melhores_odds. rewrite item_fold. destruct k; reflexivity. Qed.

Lemma escolher_cases (b : melhor) (v : option Q) (n : string) :
  escolher b v n = b \/
  exists o, v = Some o /\ odd b < o /\ ~ o == 0 /\ escolher b v n = Melhor o n.
Proof.
  unfold escolher. destruct v as [o|]; [|by left].
  destruct (truthy (Some o)) eqn:T; [|by left].
  destruct (gt o (odd b)) eqn:G; [|by left].
  right. exists o. apply truthy_Some in T. apply gt_lt in G. done.
Qed.

Lemma escolher_mono (b : melhor) (v : option Q) (n : string) :
  odd b <= odd (escolher b v n).
Proof.
  destruct (escolher_cases b v n) as [->|(o & _ & Ho & _ & ->)]; simpl; lra.
Qed.

Lemma escolher_bound (b : melhor) (p : Q) (n : string) :
  0 <= odd b -> p <= odd (escolher b (Some p) n).
Proof.
  intros Hb. unfold escolher.
  destruct (truthy (Some p)) eqn:T; simpl.
  - destruct (gt p (odd b)) eqn:G; simpl; [lra|]. by apply gt_le.
  - apply not_true_iff_false in T. rewrite truthy_Some in T.
    assert (p == 0) as E by (destruct (Qeq_dec p 0); tauto). lra.
Qed.

Lemma vencedor_cons (k : mercado) (c : casa_info) (l : list casa_info) (b : melhor) :
  vencedor k (c :: l) b = vencedor k l (escolher b (candidata c k) (nome c)).
Proof. reflexivity. Qed.

Lemma vencedor_mono (k : mercado) (l : list casa_info) (b : melhor) :
  odd b <= odd (vencedor k l b).
Proof.
  revert b. induction l as [|c l IH]; intros b; [simpl; lra|].
  rewrite vencedor_cons.
  specialize (IH (escolher b (candidata c k) (nome c))).
  pose proof (escolher_mono b (candidata c k) (nome c)). lra.
Qed.

Lemma vencedor_bound (k : mercado) (l : list casa_info) (b : melhor) (c : casa_info) (p : Q) :
  0 <= odd b -> c ∈ l -> candidata c k = Some p -> p <= odd (vencedor k l b).
Proof.
  revert b. induction l as [|c' l IH]; intros b Hb Hin Hp.
  - by apply elem_of_nil in Hin.
  - rewrite vencedor_cons.
    pose proof (escolher_mono b (candidata c' k) (nome c')) as Hm.
    apply elem_of_cons in Hin as [->|Hin].
    + rewrite Hp in *.
      pose proof (escolher_bound b p (nome c') Hb).
      pose proof (vencedor_mono k l (escolher b (Some p) (nome c'))).
      lra.
    + apply IH; [lra|done..].
Qed.

Lemma vencedor_origem (k : mercado) (l : list casa_info) (b : melhor) :
  vencedor k l b = b \/
  exists c, c ∈ l /\ candidata c k = Some (odd (vencedor k l b)) /\
            casa_aposta (vencedor k l b) = nome c /\
            odd b < odd (vencedor k l b) /\ ~ odd (vencedor k l b) == 0.
Proof.
  revert b. induction l as [|c l IH]; intros b; [by left|].
  rewrite vencedor_cons.
  destruct (IH (escolher b (candidata c k) (nome c))) as [E|(c' & Hin & Hc & Hn & Hlt & Hnz)].
  - rewrite E.
    destruct (escolher_cases b (candidata c k) (nome c)) as [->|(o & Hv & Ho & Hnz & ->)];
      [by left|].
    right. exists c. simpl. split; [apply list_elem_of_here|done].
  - right. exists c'. split; [by apply list_elem_of_further|].
    pose proof (escolher_mono b (candidata c k) (nome c)).
    repeat split; try done. lra.
Qed.

(** Of the candidates with the largest price, the earliest one is kept:
    a later candidate replaces the entry only when it is strictly larger. *)
Lemma vencedor_primeiro (k : mercado) (l1 l2 : list casa_info) (c : casa_info)
    (b : melhor) (p : Q) :
  0 <= odd b -> odd b < p ->
  candidata c k = Some p ->
  (forall c' p', c' ∈ l1 -> candidata c' k = Some p' -> p' < p) ->
  (forall c' p', c' ∈ l2 -> candidata c' k = Some p' -> p' <= p) ->
  vencedor k (l1 ++ c :: l2) b = Melhor p (nome c).
Proof.
  intros Hb Hbp Hc H1 H2. unfold vencedor. rewrite fold_left_app. simpl.
  fold (vencedor k l1 b).
  assert (odd (vencedor k l1 b) < p /\ 0 <= odd (vencedor k l1 b)) as [Hlt H0].
  { pose proof (vencedor_mono k l1 b).
    destruct (vencedor_origem k l1 b) as [->|(c' & Hin & Hc' & _)]; [lra|].
    split; [by eapply H1|lra]. }
  rewrite Hc. unfold escolher at 2.
  rewrite truthy_pos by lra. apply gt_lt in Hlt. rewrite Hlt. simpl.
  fold (vencedor k l2 (Melhor p (nome c))).
  destruct (vencedor_origem k l2 (Melhor p (nome c))) as [E|(c' & Hin & Hc' & _ & Hgt & _)];
    [done|].
  simpl in Hgt. specialize (H2 _ _ Hin Hc'). lra.
Qed.

Lemma candidata_cotacao (c : casa_info) (k : mercado) (p : Q) :
  candidata c k = Some p -> cotacao c k = Some p.
Proof.
  destruct k; simpl; try done.
  destruct (truthy (resultado_de c !! chave_guarda c)); done.
Qed.

Lemma candidata_fora_casa (c : casa_info) (k : mercado) :
  k <> casa -> candidata c k = cotacao c k.
Proof. destruct k; done. Qed.

Lemma candidata_None (c : casa_info) (k : mercado) :
  cotacao c k = None -> candidata c k = None.
Proof.
  destruct k; simpl; try done.
  intros ->. destruct (truthy (resultado_de c !! chave_guarda c)); done.
Qed.

(** X1.  For the four keys without a guard, the earliest bookmaker with the
    largest positive quote is the one recorded. *)
Lemma primeiro_vence (k : mercado) (l1 l2 : list casa_info) (c : casa_info) (p : Q) :
  k <> casa -> 0 < p ->
  cotacao c k = Some p ->
  (forall c' p', c' ∈ l1 -> cotacao c' k = Some p' -> p' < p) ->
  (forall c' p', c' ∈ l2 -> cotacao c' k = Some p' -> p' <= p) ->
  item (_calcular_melhores_odds (l1 ++ c :: l2)) k = Melhor p (nome c).
Proof.
  intros Hk Hp Hc H1 H2. rewrite item_calcular.
  apply vencedor_primeiro; simpl; try lra.
  - by rewrite candidata_fora_casa.
  - intros c' p' Hin Hc'. rewrite candidata_fora_casa in Hc' by done. eauto.
  - intros c' p' Hin Hc'. rewrite candidata_fora_casa in Hc' by done. eauto.
Qed.

(** ** Claims on [_calcular_melhores_odds] *)

(** C1.  The best price of an outcome should be the largest quote for it.
    On the scenario of the specification the draw and away entries are the
    largest quotes, but the home entry stays unset although both bookmakers
    quote home: the guard in front of the home block looks for a key named
    after the bookmaker in its result table and finds none. *)
Theorem C1_home_quotes_dropped :
  Forall (fun c => is_Some (cotacao c casa)) cenario /\
  _calcular_melhores_odds cenario =
    MelhoresOdds (Melhor 0 "") (Melhor 3.20 "BookA") (Melhor 3.50 "BookB")
                 (Melhor 0 "") (Melhor 0 "").
Proof.
  split; [|vm_compute; reflexivity].
  repeat constructor; vm_compute; eauto.
Qed.

(** C8.  Of two quotes with the same largest price the earlier one should
    win.  With two bookmakers quoting home at 2.00, neither is recorded:
    the home entry stays unset, for the reason given at C1. *)
Theorem C8_home_tie_has_no_winner :
  cotacao (bookmaker "BookA" [("home", 2.00)] []) casa = Some 2.00 /\
  cotacao (bookmaker "BookB" [("home", 2.00)] []) casa = Some 2.00 /\
  item (_calcular_melhores_odds empate_de_precos) casa = Melhor 0 "".
Proof. repeat split; vm_compute; reflexivity. Qed.

(** C3 as stated fails: with no bookmaker at all, the entry read by a
    consumer holds the number 0 and the empty string, not [None]. *)
Lemma C3_unset_is_not_null :
  ~ (forall l k, sem_cotacao l k ->
       melhor_get (item (_calcular_melhores_odds l) k) "odd" = PyNone /\
       melhor_get (item (_calcular_melhores_odds l) k) "casa_aposta" = PyNone).
Proof.
  intros H. destruct (H [] casa) as [H1 _].
  - intros c Hin. by apply elem_of_nil in Hin.
  - vm_compute in H1. discriminate.
Qed.

(** C3, amended.  An outcome that no bookmaker quotes keeps the entry the
    dictionary starts from: price 0 and the empty bookmaker name. *)
Theorem C3_unquoted_outcome_keeps_sentinel (l : list casa_info) (k : mercado) :
  sem_cotacao l k ->
  item (_calcular_melhores_odds l) k = Melhor 0 "" /\
  melhor_get (item (_calcular_melhores_odds l) k) "odd" = PyNum 0 /\
  melhor_get (item (_calcular_melhores_odds l) k) "casa_aposta" = PyStr "".
Proof.
  intros H.
  assert (item (_calcular_melhores_odds l) k = Melhor 0 "") as ->; [|done].
  rewrite item_calcular.
  destruct (vencedor_origem k l (Melhor 0 "")) as [E|(c & Hin & Hc & _)]; [done|].
  rewrite (candidata_None c k) in Hc by auto. discriminate.
Qed.

Lemma C3_unquoted_outcome_witness :
  item (_calcular_melhores_odds [bookmaker "BookA" [("draw", 3.20)] []]) fora = Melhor 0 "" /\
  melhor_get (item (_calcular_melhores_odds [bookmaker "BookA" [("draw", 3.20)] []]) fora) "odd"
    = PyNum 0 /\
  melhor_get (item (_calcular_melhores_odds [bookmaker "BookA" [("draw", 3.20)] []]) fora)
    "casa_aposta" = PyStr "".
Proof.
  apply C3_unquoted_outcome_keeps_sentinel.
  intros c Hin. apply list_elem_of_singleton in Hin. subst c. reflexivity.
Defined.




(** ** The analysis as a pure function *)

Lemma div_Retorna (a b : Q) : ~ b == 0 -> div a b = Retorna (a / b).
Proof.
  intros H. unfold div. destruct (Qeq_bool b 0) eqn:E; [|done].
  by apply Qeq_bool_iff in E.
Qed.

Lemma div_Levanta (a b : Q) : b == 0 -> div a b = Levanta ZeroDivisionError.
Proof. intros H. unfold div. apply Qeq_bool_iff in H. by rewrite H. Qed.

Lemma Qlt_div_mult (a b c : Q) : 0 < c -> a < b / c -> a * c < b.
Proof.
  intros Hc H. apply (Qmult_lt_compat_r _ _ c) in H; [|done].
  assert (b / c * c == b) as E by (field; lra). by rewrite E in H.
Qed.

Lemma fold_left_Qplus (l : list Q) (a : Q) : fold_left Qplus l a == a + sum l.
Proof.
  unfold sum. revert a. induction l as [|x l IH]; intros a; simpl; [lra|].
  rewrite (IH (a + x)), (IH (0 + x)). lra.
Qed.

Lemma sum_cons (x : Q) (l : list Q) : sum (x :: l) == x + sum l.
Proof. unfold sum at 1. simpl. rewrite fold_left_Qplus. lra. Qed.

Lemma sum_pos (l : list Q) : Forall (fun x => 0 < x) l -> l <> [] -> 0 < sum l.
Proof.
  intros H Hne. destruct H as [|x l Hx Hl]; [done|].
  rewrite sum_cons. clear Hne.
  assert (0 <= sum l); [|lra].
  induction Hl as [|y l Hy Hl IH]; [by vm_compute|]. rewrite sum_cons. lra.
Qed.

Lemma coletar_bruta (m : melhores_odds) (l : list mercado) (acc : list Q) :
  coletar m l acc = Retorna (acc ++ flat_map (bruta m) l)%list.
Proof.
  revert acc. induction l as [|k l IH]; intros acc; simpl.
  - by rewrite app_nil_r.
  - unfold bruta at 1. destruct (gt (odd (item m k)) 0) eqn:G.
    + apply gt_lt in G. rewrite div_Retorna by lra. simpl.
      rewrite IH. by rewrite <- app_assoc.
    + by rewrite IH.
Qed.

Lemma bruta_pos (m : melhores_odds) (l : list mercado) :
  Forall (fun x => 0 < x) (flat_map (bruta m) l).
Proof.
  induction l as [|k l IH]; simpl; [constructor|].
  apply Forall_app. split; [|done]. unfold bruta.
  destruct (gt (odd (item m k)) 0) eqn:G; constructor; [|constructor].
  apply gt_lt in G. unfold Qdiv. rewrite Qmult_1_l. by apply Qinv_lt_0_compat.
Qed.

Lemma nome_mercado_resultado (k : mercado) :
  k ∈ mercados_resultado -> exists n, nome_mercado k = Retorna n.
Proof.
  unfold mercados_resultado. intros Hk.
  repeat (apply elem_of_cons in Hk as [->|Hk]); simpl; eauto.
  by apply elem_of_nil in Hk.
Qed.

Lemma prob_ajustada_Retorna (odds_validas : list Q) (o : Q) :
  0 < o -> 0 < sum odds_validas ->
  prob_ajustada odds_validas o = Retorna (1 / o / sum odds_validas).
Proof.
  intros Ho Hs. unfold prob_ajustada, prob_implicita.
  rewrite div_Retorna by lra. simpl. rewrite div_Retorna by lra. done.
Qed.

Lemma detectar_aposta (m : melhores_odds) (odds_validas : list Q) (l : list mercado)
    (acc : list value_bet) :
  0 < sum odds_validas -> l ⊆ mercados_resultado ->
  detectar m odds_validas l acc = Retorna (acc ++ flat_map (aposta m odds_validas) l)%list.
Proof.
  intros Hs. revert acc. induction l as [|k l IH]; intros acc Hl; simpl.
  - by rewrite app_nil_r.
  - assert (k ∈ mercados_resultado) as Hk by (apply Hl; apply list_elem_of_here).
    assert (l ⊆ mercados_resultado) as Hl'
      by (intros x Hx; apply Hl; by apply list_elem_of_further).
    unfold aposta at 1. destruct (gt (odd (item m k)) 0) eqn:G; simpl.
    + apply gt_lt in G. rewrite prob_ajustada_Retorna by done. simpl.
      destruct (gt (1 / odd (item m k) / sum odds_validas) limiar).
      * destruct (nome_mercado_resultado k Hk) as [n ->].
        simpl. rewrite IH by done. by rewrite <- app_assoc.
      * by rewrite IH.
    + by rewrite IH.
Qed.

(** The analysis never raises; its result is given by [bruta] and [aposta]. *)
Lemma analisar_puro (m : melhores_odds) :
  _analisar_valor_odds m =
  Retorna
    (match flat_map (bruta m) mercados_resultado with
     | [] => Analise [] 0 (recomendar [])
     | odds_validas =>
         Analise (flat_map (aposta m odds_validas) mercados_resultado)
                 ((sum odds_validas - 1) * 100)
                 (recomendar (flat_map (aposta m odds_validas) mercados_resultado))
     end).
Proof.
  unfold _analisar_valor_odds. rewrite coletar_bruta. cbn [py_bind app].
  pose proof (bruta_pos m mercados_resultado) as Hpos.
  destruct (flat_map (bruta m) mercados_resultado) as [|x ovs] eqn:E; [done|].
  rewrite detectar_aposta; [done| |done].
  by apply sum_pos.
Qed.

Lemma sum_app (l1 l2 : list Q) : sum (l1 ++ l2) == sum l1 + sum l2.
Proof.
  induction l1 as [|x l1 IH]; simpl.
  - change (sum []) with 0. lra.
  - rewrite !sum_cons, IH. lra.
Qed.

Lemma sum_bruta (m : melhores_odds) :
  sum (flat_map (bruta m) mercados_resultado) ==
  sum (bruta m casa) + sum (bruta m empate) + sum (bruta m fora).
Proof.
  simpl. rewrite !sum_app. change (sum []) with 0. lra.
Qed.

Lemma sum_bruta_nonneg (m : melhores_odds) (k : mercado) : 0 <= sum (bruta m k).
Proof.
  pose proof (bruta_pos m [k]) as H. simpl in H. rewrite app_nil_r in H.
  destruct (bruta m k) as [|x l] eqn:E; [by vm_compute|].
  apply Qlt_le_weak, sum_pos; done.
Qed.

Lemma aposta_cases (m : melhores_odds) (odds_validas : list Q) (k : mercado) :
  aposta m odds_validas k = [] \/
  exists vb, aposta m odds_validas k = [vb] /\
    0 < odd (item m k) /\
    limiar < 1 / odd (item m k) / sum odds_validas /\
    (0 < sum odds_validas -> limiar * sum odds_validas < sum (bruta m k)).
Proof.
  unfold aposta, bruta.
  destruct (gt (odd (item m k)) 0) eqn:G; [|by left].
  destruct (gt (1 / odd (item m k) / sum odds_validas) limiar) eqn:P; [|by left].
  right. eexists. split; [reflexivity|].
  apply gt_lt in G. apply gt_lt in P. repeat split; try done.
  intros Hs. rewrite sum_cons. change (sum []) with 0.
  apply Qlt_div_mult in P; [|done]. lra.
Qed.

(** ** Claims on [_analisar_valor_odds] *)

Lemma sem_preco_bruta (m : melhores_odds) :
  sem_preco m -> flat_map (bruta m) mercados_resultado = [].
Proof.
  intros H. unfold mercados_resultado in *. simpl. unfold bruta.
  rewrite !(proj2 (gt_le _ 0)); [done|apply H..];
    repeat first [apply list_elem_of_here | apply list_elem_of_further].
Qed.

(** The first scenario of the specification, from the best prices it
    expects: the margin is about 7.4 percent and no key qualifies. *)
Example analise_do_cenario :
  exists a,
    _analisar_valor_odds
      (MelhoresOdds (Melhor 2.10 "BookB") (Melhor 3.20 "BookA") (Melhor 3.50 "BookB")
                    (Melhor 0 "") (Melhor 0 "")) = Retorna a /\
    value_bets a = [] /\ 7.4 < margem_mercado a < 7.5 /\
    recomendacao a = "⚡ Aguardando melhores oportunidades".
Proof. eexists. split; [vm_compute; reflexivity|]. vm_compute. auto. Qed.

(** A heavy favourite: one entry, for the home key. *)
Example analise_do_favorito :
  _analisar_valor_odds
    (MelhoresOdds (Melhor 1.2 "A") (Melhor 6 "B") (Melhor 9 "C") (Melhor 0 "") (Melhor 0 "")) =
  Retorna (Analise [ValueBet "Vitória Casa" 1.2 "75.0%" "A"] (7200 # 648)
                   "🎯 1 VALUE BET(S) IDENTIFICADO(S)").
Proof. vm_compute. reflexivity. Qed.

(** C2 as stated fails: with nothing priced the margin read by a consumer
    is the number 0, not [None]. *)
Lemma C2_margin_is_zero_not_null :
  ~ (forall m, sem_preco m ->
       exists a, _analisar_valor_odds m = Retorna a /\
                 coletar m mercados_resultado [] = Retorna [] /\
                 margem_get a = PyNone).
Proof.
  intros H. destruct (H melhores_inicial) as (a & Ha & _ & Hm).
  - intros k _. destruct k; vm_compute; discriminate.
  - vm_compute in Ha. injection Ha as <-. discriminate.
Qed.

(** C2, amended.  With nothing priced no division is reached: the list of
    raw probabilities is empty, [value_bets] is empty and the margin keeps
    its initial value 0. *)
Theorem C2_no_price_empty_analysis (m : melhores_odds) :
  sem_preco m ->
  coletar m mercados_resultado [] = Retorna [] /\
  _analisar_valor_odds m =
    Retorna (Analise [] 0 "⚡ Aguardando melhores oportunidades").
Proof.
  intros H. rewrite analisar_puro, coletar_bruta, sem_preco_bruta by done. done.
Qed.

Lemma C2_no_price_witness :
  coletar melhores_inicial mercados_resultado [] = Retorna [] /\
  _analisar_valor_odds melhores_inicial =
    Retorna (Analise [] 0 "⚡ Aguardando melhores oportunidades").
Proof.
  apply (C2_no_price_empty_analysis melhores_inicial).
  intros k _. destruct k; vm_compute; discriminate.
Defined.



Lemma nome_mercado_inj (k k' : mercado) (n : string) :
  nome_mercado k = Retorna n -> nome_mercado k' = Retorna n -> k = k'.
Proof. destruct k, k'; simpl; congruence. Qed.

(** *** The analysis on binary64 prices *)

Lemma div_f_Retorna (a b q : float) :
  div_f a b = Retorna q -> q = PrimFloat.div a b.
Proof. unfold div_f. destruct (PrimFloat.eqb b 0%float); congruence. Qed.

Lemma prob_ajustada_f_Retorna (odds_validas : list float) (o p : float) :
  prob_ajustada_f odds_validas o = Retorna p ->
  p = PrimFloat.div (PrimFloat.div 1%float o) (sum_f odds_validas).
Proof.
  unfold prob_ajustada_f. destruct (div_f 1%float o) as [r|e] eqn:E; simpl; [|done].
  apply div_f_Retorna in E. subst r. apply div_f_Retorna.
Qed.

Lemma coletar_f_Retorna (m : mercado -> melhor_f) (l : list mercado) (acc r : list float) :
  coletar_f m l acc = Retorna r ->
  r = (acc ++ flat_map (fun k => if gt_f (odd_f (m k)) 0%float
                                 then [PrimFloat.div 1%float (odd_f (m k))] else []) l)%list.
Proof.
  revert acc. induction l as [|k l IH]; intros acc; simpl.
  - intros [= <-]. by rewrite app_nil_r.
  - destruct (gt_f (odd_f (m k)) 0%float).
    + destruct (div_f 1%float (odd_f (m k))) as [q|e] eqn:E; simpl; [|done].
      apply div_f_Retorna in E. subst q. intros H. rewrite (IH _ H).
      by rewrite <- app_assoc.
    + apply IH.
Qed.

Lemma detectar_f_Retorna (m : mercado -> melhor_f) (odds_validas : list float)
    (l : list mercado) (acc r : list value_bet_f) :
  l ⊆ mercados_resultado ->
  detectar_f m odds_validas l acc = Retorna r ->
  r = (acc ++ flat_map (aposta_f m odds_validas) l)%list.
Proof.
  revert acc. induction l as [|k l IH]; intros acc Hl; simpl.
  - intros [= <-]. by rewrite app_nil_r.
  - assert (k ∈ mercados_resultado) as Hk by (apply Hl; apply list_elem_of_here).
    assert (l ⊆ mercados_resultado) as Hl'
      by (intros x Hx; apply Hl; by apply list_elem_of_further).
    unfold aposta_f at 1. destruct (gt_f (odd_f (m k)) 0%float); simpl; [|by apply IH].
    destruct (prob_ajustada_f odds_validas (odd_f (m k))) as [p|e] eqn:E; simpl; [|done].
    apply prob_ajustada_f_Retorna in E. subst p.
    destruct (gt_f _ limiar_f); [|by apply IH].
    destruct (nome_mercado_resultado k Hk) as [n ->]. simpl.
    intros H. rewrite (IH _ Hl' H). by rewrite <- app_assoc.
Qed.

Lemma analisar_f_Retorna (m : mercado -> melhor_f) (a : analise_f) :
  _analisar_valor_odds_f m = Retorna a ->
  value_bets_f a =
    match reciprocos_f m with
    | [] => []
    | odds_validas => flat_map (aposta_f m odds_validas) mercados_resultado
    end.
Proof.
  unfold _analisar_valor_odds_f.
  destruct (coletar_f m mercados_resultado []) as [ovs|e] eqn:E; cbn [py_bind]; [|done].
  apply coletar_f_Retorna in E. rewrite app_nil_l in E.
  change (ovs = reciprocos_f m) in E. subst ovs.
  destruct (reciprocos_f m) as [|x ovs]; cbn beta iota.
  - intros H. by injection H as <-.
  - destruct (detectar_f m (x :: ovs) mercados_resultado []) as [vbs|e] eqn:D;
      cbn [py_bind]; [|done].
    apply detectar_f_Retorna in D; [|done]. intros H. by injection H as <-.
Qed.

Lemma elem_of_aposta_f (m : mercado -> melhor_f) (odds_validas : list float) (k : mercado)
    (vb : value_bet_f) (n : string) :
  nome_mercado k = Retorna n ->
  vb ∈ aposta_f m odds_validas k -> vf_mercado vb = n.
Proof.
  intros Hn. unfold aposta_f. rewrite Hn.
  destruct (gt_f _ _ && gt_f _ _); intros Hin.
  - apply list_elem_of_singleton in Hin. by subst vb.
  - by apply elem_of_nil in Hin.
Qed.

(** A positive float is not zero, so the reciprocal of a positive price
    never raises. *)
Lemma gt_f_zero (o : float) : gt_f o 0%float = true -> PrimFloat.eqb o 0%float = false.
Proof.
  unfold gt_f. rewrite FloatAxioms.ltb_spec, FloatAxioms.eqb_spec.
  change (Prim2SF 0%float) with (S754_zero false).
  destruct (Prim2SF o) as [s|s| |s m e]; try destruct s; cbv; congruence.
Qed.

Lemma coletar_f_total (m : mercado -> melhor_f) (l : list mercado) (acc : list float) :
  coletar_f m l acc =
  Retorna (acc ++ flat_map (fun k => if gt_f (odd_f (m k)) 0%float
                                     then [PrimFloat.div 1%float (odd_f (m k))] else []) l)%list.
Proof.
  revert acc. induction l as [|k l IH]; intros acc; simpl.
  - by rewrite app_nil_r.
  - destruct (gt_f (odd_f (m k)) 0%float) eqn:G.
    + unfold div_f. rewrite (gt_f_zero _ G). cbn [py_bind].
      rewrite IH. by rewrite <- app_assoc.
    + apply IH.
Qed.

Lemma detectar_f_total (m : mercado -> melhor_f) (odds_validas : list float)
    (l : list mercado) (acc : list value_bet_f) :
  l ⊆ mercados_resultado ->
  PrimFloat.eqb (sum_f odds_validas) 0%float = false ->
  detectar_f m odds_validas l acc =
  Retorna (acc ++ flat_map (aposta_f m odds_validas) l)%list.
Proof.
  intros Hl HS. revert acc Hl. induction l as [|k l IH]; intros acc Hl; simpl.
  - by rewrite app_nil_r.
  - assert (k ∈ mercados_resultado) as Hk by (apply Hl; apply list_elem_of_here).
    assert (l ⊆ mercados_resultado) as Hl'
      by (intros x Hx; apply Hl; by apply list_elem_of_further).
    unfold aposta_f at 1.
    destruct (gt_f (odd_f (m k)) 0%float) eqn:G; simpl; [|by apply IH].
    unfold prob_ajustada_f, div_f. rewrite (gt_f_zero _ G). cbn [py_bind]. rewrite HS.
    cbn [py_bind].
    destruct (gt_f _ limiar_f); [|by apply IH].
    destruct (nome_mercado_resultado k Hk) as [n ->]. cbn [py_bind].
    rewrite (IH _ Hl'). by rewrite <- app_assoc.
Qed.

Lemma detectar_f_raises (m : mercado -> melhor_f) (odds_validas : list float)
    (l : list mercado) (acc : list value_bet_f) :
  PrimFloat.eqb (sum_f odds_validas) 0%float = true ->
  (exists k, k ∈ l /\ gt_f (odd_f (m k)) 0%float = true) ->
  detectar_f m odds_validas l acc = Levanta ZeroDivisionError.
Proof.
  intros HS. revert acc. induction l as [|k l IH]; intros acc (k' & Hk' & G').
  - by apply elem_of_nil in Hk'.
  - simpl. destruct (gt_f (odd_f (m k)) 0%float) eqn:G.
    + unfold prob_ajustada_f, div_f. rewrite (gt_f_zero _ G). cbn [py_bind].
      by rewrite HS.
    + apply IH. apply elem_of_cons in Hk' as [->|Hk']; [congruence|eauto].
Qed.

(** The analysis on binary64 prices raises exactly when some price is
    positive and the sum of the reciprocals of the positive prices is 0.0;
    it raises [ZeroDivisionError] then, and returns otherwise. *)
Lemma analisar_f_raises (m : mercado -> melhor_f) :
  match _analisar_valor_odds_f m with
  | Retorna _ =>
      reciprocos_f m = [] \/ PrimFloat.eqb (sum_f (reciprocos_f m)) 0%float = false
  | Levanta e =>
      e = ZeroDivisionError /\ reciprocos_f m <> [] /\
      PrimFloat.eqb (sum_f (reciprocos_f m)) 0%float = true
  end.
Proof.
  unfold _analisar_valor_odds_f. rewrite coletar_f_total. cbn [py_bind app].
  fold (reciprocos_f m).
  destruct (reciprocos_f m) as [|x ovs] eqn:E; [by left|].
  destruct (PrimFloat.eqb (sum_f (x :: ovs)) 0%float) eqn:HS.
  - rewrite detectar_f_raises; [done|done|].
    assert (x ∈ reciprocos_f m) as Hx by (rewrite E; apply list_elem_of_here).
    apply list_elem_of_In, in_flat_map in Hx as (k & Hk & Hx).
    exists k. split; [by apply list_elem_of_In|].
    destruct (gt_f (odd_f (m k)) 0%float); [done|by destruct Hx].
  - rewrite detectar_f_total by done. by right.
Qed.

(** A price of infinity, the float a JSON number such as 1e999 is read as:
    its reciprocal is 0.0, the list of raw probabilities is not empty, and
    the division by their sum raises. *)
Example analise_f_preco_infinito :
  _analisar_valor_odds_f preco_infinito = Levanta ZeroDivisionError.
Proof. vm_compute. reflexivity. Qed.

(** Home at 1.25, draw at 3 and away at 5: the exact share of home is 3/5
    and the exact analysis reports nothing; the share computed in binary64
    is 0.6000000000000001 and home is reported, at "60.0%". *)
Example analise_f_tres_precos :
  (a <- _analisar_valor_odds_f
          (fun k => match k with
                    | casa => MelhorF 1.25%float "BookA"
                    | empate => MelhorF 3%float "BookB"
                    | fora => MelhorF 5%float "BookC"
                    | _ => MelhorF 0%float ""
                    end) ;;
   Retorna (value_bets_f a)) =
  Retorna [ValueBetF "Vitória Casa" 1.25%float "60.0%" "BookA"] /\
  (a <- _analisar_valor_odds
          (MelhoresOdds (Melhor 1.25 "BookA") (Melhor 3 "BookB") (Melhor 5 "BookC")
             (Melhor 0 "") (Melhor 0 "")) ;;
   Retorna (value_bets a)) = Retorna [].
Proof. split; vm_compute; reflexivity. Qed.

(** C5 as stated fails: with home at 2.0 and draw at 3.0 the share of home
    is exactly 3/5, which does not exceed 0.60, and the analysis reports
    home all the same: the share it computes is 0.6000000000000001. *)
Lemma C5_exact_share_at_threshold_reported :
  ~ (forall (m : mercado -> melhor_f) a k n,
       _analisar_valor_odds_f m = Retorna a ->
       k ∈ mercados_resultado -> nome_mercado k = Retorna n ->
       ((exists vb, vb ∈ value_bets_f a /\ vf_mercado vb = n) <->
        0.6 < parte_exata (exato m) k)).
Proof.
  intros H.
  destruct (H dois_precos analise_dois_precos casa "Vitória Casa") as [Hiff _].
  - vm_compute. reflexivity.
  - apply list_elem_of_here.
  - reflexivity.
  - assert (0.6 < parte_exata (exato dois_precos) casa) as Hlt.
    { apply Hiff. eexists. split; [apply list_elem_of_here|reflexivity]. }
    vm_compute in Hlt. discriminate.
Qed.

(** C5, amended.  When the analysis returns, a result key has an entry in
    [value_bets] exactly when its best price is positive and the share
    Python computes for it, the reciprocal of the price over the sum of the
    reciprocals of the positive prices, is above the threshold 0.6. *)
Theorem C5_value_bet_iff_computed_share_above (m : mercado -> melhor_f) (a : analise_f)
    (k : mercado) (n : string) :
  _analisar_valor_odds_f m = Retorna a ->
  k ∈ mercados_resultado -> nome_mercado k = Retorna n ->
  ((exists vb, vb ∈ value_bets_f a /\ vf_mercado vb = n) <->
   (gt_f (odd_f (m k)) 0%float = true /\ gt_f (parte_f m k) limiar_f = true)).
Proof.
  intros Ha Hk Hn. apply analisar_f_Retorna in Ha. rewrite Ha. clear Ha.
  unfold parte_f.
  assert (gt_f (odd_f (m k)) 0%float = true ->
          PrimFloat.div 1%float (odd_f (m k)) ∈ reciprocos_f m) as Hin.
  { intros G. apply list_elem_of_In, in_flat_map. exists k.
    split; [by apply list_elem_of_In|]. rewrite G. by left. }
  destruct (reciprocos_f m) as [|x ovs].
  - split.
    + intros (vb & Hvb & _). by apply elem_of_nil in Hvb.
    + intros [G _]. apply Hin in G. by apply elem_of_nil in G.
  - split.
    + intros (vb & Hvb & Hm).
      apply list_elem_of_In, in_flat_map in Hvb as (k' & Hk' & Hvb).
      apply list_elem_of_In in Hk', Hvb.
      destruct (nome_mercado_resultado k' Hk') as [n' Hn'].
      pose proof (elem_of_aposta_f _ _ _ _ _ Hn' Hvb) as Hm'.
      assert (k' = k) as -> by (apply (nome_mercado_inj _ _ n); congruence).
      unfold aposta_f in Hvb.
      destruct (gt_f (odd_f (m k)) 0%float); [|by apply elem_of_nil in Hvb].
      destruct (gt_f _ limiar_f); [done|by apply elem_of_nil in Hvb].
    + intros [G P]. eexists. split.
      * apply list_elem_of_In, in_flat_map. exists k.
        split; [by apply list_elem_of_In|].
        unfold aposta_f. rewrite G, P. left. reflexivity.
      * simpl. by rewrite Hn.
Qed.

Lemma C5_value_bet_computed_witness :
  (exists vb, vb ∈ value_bets_f analise_dois_precos /\ vf_mercado vb = "Vitória Casa") <->
  (gt_f (odd_f (dois_precos casa)) 0%float = true /\
   gt_f (parte_f dois_precos casa) limiar_f = true).
Proof.
  apply (C5_value_bet_iff_computed_share_above dois_precos analise_dois_precos casa).
  - vm_compute. reflexivity.
  - apply list_elem_of_here.
  - reflexivity.
Defined.





(** ** Claims on [analyze_trend] *)


Lemma trend_cases (d : Q) :
  (0 < d -> trend d = "↑") /\ (d < 0 -> trend d = "↓") /\ (d == 0 -> trend d = "→").
Proof.
  unfold trend. repeat split; intros H.
  - by rewrite (proj2 (gt_lt d 0)).
  - rewrite (proj2 (gt_le d 0)) by lra. by rewrite (proj2 (lt_lt d 0)).
  - rewrite (proj2 (gt_le d 0)) by lra.
    destruct (lt d 0) eqn:L; [|done]. apply lt_lt in L. lra.
Qed.

Lemma elem_of_linha_mercado (current previous : snapshot) (market : string) (s : saida) :
  s ∈ linha_mercado current previous market ->
  exists c p, get current market = Some c /\ get previous market = Some p /\
              ~ c == 0 /\ ~ p == 0 /\
              s = Linha market c (trend (change c p)) (Qabs (change c p)).
Proof.
  unfold linha_mercado.
  destruct (get current market) as [c|]; [|by intros ?%elem_of_nil].
  destruct (get previous market) as [p|]; [|by intros ?%elem_of_nil].
  destruct (truthy (Some c)) eqn:Tc; [|by intros ?%elem_of_nil].
  destruct (truthy (Some p)) eqn:Tp; [|by intros ?%elem_of_nil].
  intros ->%list_elem_of_singleton. apply truthy_Some in Tc, Tp. eauto 10.
Qed.

Lemma elem_of_compare (current previous : snapshot) (s : saida) :
  s ∈ compare current previous <->
  exists market, market ∈ ["home"; "draw"; "away"] /\
                 s ∈ linha_mercado current previous market.
Proof.
  unfold compare. rewrite list_elem_of_In, in_flat_map.
  split; intros (mk & H1 & H2); exists mk; by rewrite ?list_elem_of_In in *.
Qed.



(** * Further properties *)

(** ** More on [_calcular_melhores_odds] *)

Lemma vencedor_app (k : mercado) (l1 l2 : list casa_info) (b : melhor) :
  vencedor k (l1 ++ l2) b = vencedor k l2 (vencedor k l1 b).
Proof. unfold vencedor. apply fold_left_app. Qed.

Lemma vencedor_nonneg (k : mercado) (l : list casa_info) :
  0 <= odd (vencedor k l (Melhor 0 "")).
Proof. apply (vencedor_mono k l (Melhor 0 "")). Qed.

(** The recorded price is the largest of 0 and the candidates, so two
    lists with the same bookmakers give the same price. *)
Lemma vencedor_le (k : mercado) (l l' : list casa_info) :
  (forall c, c ∈ l -> c ∈ l') ->
  odd (vencedor k l (Melhor 0 "")) <= odd (vencedor k l' (Melhor 0 "")).
Proof.
  intros Hsub.
  destruct (vencedor_origem k l (Melhor 0 "")) as [->|(c & Hin & Hc & _)].
  - apply vencedor_nonneg.
  - apply (vencedor_bound k l' _ c); simpl; [lra|auto|done].
Qed.

(** X3.  The best price of every outcome is the same whatever the order of the
    bookmakers; only the bookmaker recorded for a tie depends on it. *)
Theorem melhor_preco_permutacao (l l' : list casa_info) (k : mercado) :
  l ≡ₚ l' ->
  odd (item (_calcular_melhores_odds l) k) == odd (item (_calcular_melhores_odds l') k).
Proof.
  intros HP. rewrite !item_calcular. apply Qle_antisym; apply vencedor_le; intros c Hc.
  - by rewrite <- HP.
  - by rewrite HP.
Qed.

Lemma melhor_preco_permutacao_witness :
  odd (item (_calcular_melhores_odds
               [bookmaker "BookA" [("away", 3.40)] []; bookmaker "BookB" [("away", 3.50)] []])
            fora) ==
  odd (item (_calcular_melhores_odds
               [bookmaker "BookB" [("away", 3.50)] []; bookmaker "BookA" [("away", 3.40)] []])
            fora).
Proof.
  apply melhor_preco_permutacao. apply perm_swap.
Defined.

(** X4.  More bookmakers never lower a best price. *)
Theorem mais_casas_nao_baixam (l l' : list casa_info) (k : mercado) :
  odd (item (_calcular_melhores_odds l) k) <=
  odd (item (_calcular_melhores_odds (l ++ l')) k).
Proof. rewrite !item_calcular, vencedor_app. apply vencedor_mono. Qed.

(** X2.  The home price is positive exactly when some bookmaker has a positive
    home quote and, in the same result table, a non-zero entry under the
    guard key: its own name, or "home_team" / "away_team" for a bookmaker
    called "home" / "away". *)
Theorem casa_exige_guarda (l : list casa_info) :
  0 < odd (item (_calcular_melhores_odds l) casa) <->
  exists c p, c ∈ l /\ resultado_de c !! "home" = Some p /\ 0 < p /\
              exists g, resultado_de c !! chave_guarda c = Some g /\ ~ g == 0.
Proof.
  rewrite item_calcular. split.
  - intros Hpos.
    destruct (vencedor_origem casa l (Melhor 0 "")) as [E|(c & Hin & Hc & _ & Hlt & _)].
    + rewrite E in Hpos. simpl in Hpos. lra.
    + exists c, (odd (vencedor casa l (Melhor 0 ""))). simpl in Hc.
      destruct (resultado_de c !! chave_guarda c) as [g|] eqn:G; [|done].
      destruct (truthy (Some g)) eqn:T; [|done].
      apply truthy_Some in T. eauto 10.
  - intros (c & p & Hin & Hp & Hpos & g & Hg & Hnz).
    eapply Qlt_le_trans; [exact Hpos|].
    apply (vencedor_bound casa l _ c); simpl; [lra|done|].
    rewrite Hg, (proj2 (truthy_Some g)) by done. done.
Qed.

(** X5.  A bookmaker entry without any market table changes nothing. *)
Theorem casa_sem_mercados_ignorada (l1 l2 : list casa_info) (c : casa_info) :
  mercados c = ∅ ->
  _calcular_melhores_odds (l1 ++ c :: l2) = _calcular_melhores_odds (l1 ++ l2).
Proof.
  intros E. unfold _calcular_melhores_odds. rewrite !fold_left_app. simpl.
  f_equal. unfold passo. rewrite E, !lookup_empty. simpl. rewrite !lookup_empty. done.
Qed.

Lemma casa_sem_mercados_witness :
  _calcular_melhores_odds
    ([bookmaker "BookA" [("away", 3.40)] []] ++ CasaInfo "BookC" "bookc" "" ∅ ::
     [bookmaker "BookB" [("away", 3.50)] []]) =
  _calcular_melhores_odds
    ([bookmaker "BookA" [("away", 3.40)] []] ++ [bookmaker "BookB" [("away", 3.50)] []]).
Proof. apply casa_sem_mercados_ignorada. reflexivity. Defined.

Lemma primeiro_vence_witness :
  item (_calcular_melhores_odds
          ([bookmaker "BookA" [("away", 3.40)] []] ++
           bookmaker "BookB" [("away", 3.50)] [] :: [bookmaker "BookC" [("away", 3.50)] []]))
       fora = Melhor 3.50 "BookB".
Proof.
  apply (primeiro_vence fora [bookmaker "BookA" [("away", 3.40)] []]
           [bookmaker "BookC" [("away", 3.50)] []]
           (bookmaker "BookB" [("away", 3.50)] []) 3.50).
  - discriminate.
  - reflexivity.
  - reflexivity.
  - intros c' p' Hin Hc. apply list_elem_of_singleton in Hin. subst c'.
    vm_compute in Hc. injection Hc as <-. reflexivity.
  - intros c' p' Hin Hc. apply list_elem_of_singleton in Hin. subst c'.
    vm_compute in Hc. injection Hc as <-. vm_compute. discriminate.
Defined.

(** ** More on [_analisar_valor_odds] *)

Lemma bruta_set_item (m : melhores_odds) (k k' : mercado) (b : melhor) :
  k ∈ mercados_resultado -> k' ∉ mercados_resultado ->
  bruta (set_item m k' b) k = bruta m k.
Proof.
  intros Hk Hk'. unfold bruta. rewrite item_set_item.
  destruct (decide (k' = k)) as [->|]; done.
Qed.

Lemma aposta_set_item (m : melhores_odds) (ovs : list Q) (k k' : mercado) (b : melhor) :
  k ∈ mercados_resultado -> k' ∉ mercados_resultado ->
  aposta (set_item m k' b) ovs k = aposta m ovs k.
Proof.
  intros Hk Hk'. unfold aposta. rewrite item_set_item.
  destruct (decide (k' = k)) as [->|]; done.
Qed.

Lemma flat_map_ext_elem {A B : Type} (f g : A -> list B) (l : list A) :
  (forall x, x ∈ l -> f x = g x) -> flat_map f l = flat_map g l.
Proof.
  induction l as [|x l IH]; intros H; simpl; [done|].
  rewrite (H x) by apply list_elem_of_here.
  rewrite IH; [done|]. intros y Hy. apply H. by apply list_elem_of_further.
Qed.

(** X6.  The analysis looks at the home, draw and away entries only: the
    over/under entries of [melhores] have no effect on it. *)
Theorem analise_ignora_over_under (m : melhores_odds) (k' : mercado) (b : melhor) :
  k' ∉ mercados_resultado ->
  _analisar_valor_odds (set_item m k' b) = _analisar_valor_odds m.
Proof.
  intros Hk'. rewrite !analisar_puro.
  rewrite (flat_map_ext_elem (bruta (set_item m k' b)) (bruta m))
    by (intros k Hk; by apply bruta_set_item).
  destruct (flat_map (bruta m) mercados_resultado) as [|x ovs]; [done|].
  lazy beta iota zeta.
  rewrite (flat_map_ext_elem (aposta (set_item m k' b) (x :: ovs)) (aposta m (x :: ovs)))
    by (intros k Hk; by apply aposta_set_item).
  done.
Qed.

Lemma analise_ignora_over_under_witness :
  _analisar_valor_odds (set_item melhores_inicial over_25 (Melhor 1.90 "BookA")) =
  _analisar_valor_odds melhores_inicial.
Proof.
  apply analise_ignora_over_under.
  unfold mercados_resultado. intros H.
  repeat (apply elem_of_cons in H as [H|H]; [discriminate|]).
  by apply elem_of_nil in H.
Defined.

Lemma analisar_Retorna (m : melhores_odds) (a : analise) :
  _analisar_valor_odds m = Retorna a ->
  a = match flat_map (bruta m) mercados_resultado with
      | [] => Analise [] 0 (recomendar [])
      | odds_validas =>
          Analise (flat_map (aposta m odds_validas) mercados_resultado)
                  ((sum odds_validas - 1) * 100)
                  (recomendar (flat_map (aposta m odds_validas) mercados_resultado))
      end.
Proof. rewrite analisar_puro. congruence. Qed.

Lemma elem_of_flat_map_aposta (m : melhores_odds) (ovs : list Q) (vb : value_bet) :
  vb ∈ flat_map (aposta m ovs) mercados_resultado ->
  exists k, k ∈ mercados_resultado /\ aposta m ovs k = [vb] /\
            0 < odd (item m k) /\ limiar < 1 / odd (item m k) / sum ovs.
Proof.
  intros (k & Hk & Hin)%list_elem_of_In%in_flat_map.
  apply list_elem_of_In in Hk, Hin. exists k. split; [done|].
  destruct (aposta_cases m ovs k) as [E|(vb' & E & Ho & Hp & _)].
  - rewrite E in Hin. by apply elem_of_nil in Hin.
  - rewrite E in Hin. apply list_elem_of_singleton in Hin. by subst vb'.
Qed.

(** X10.  Every entry of [value_bets] is backed by a quote: the price it shows
    is a positive quote for its outcome by the bookmaker it names. *)
Theorem value_bet_tem_cotacao (l : list casa_info) (a : analise) (vb : value_bet) :
  _analisar_valor_odds (_calcular_melhores_odds l) = Retorna a ->
  vb ∈ value_bets a ->
  exists k c, k ∈ mercados_resultado /\ nome_mercado k = Retorna (vb_mercado vb) /\
              c ∈ l /\ nome c = vb_casa_aposta vb /\
              cotacao c k = Some (vb_odd vb) /\ 0 < vb_odd vb.
Proof.
  intros Ha Hin. apply analisar_Retorna in Ha. rewrite Ha in Hin. clear Ha.
  destruct (flat_map (bruta (_calcular_melhores_odds l)) mercados_resultado) as [|x ovs];
    [by apply elem_of_nil in Hin|].
  cbn [value_bets] in Hin.
  apply elem_of_flat_map_aposta in Hin as (k & Hk & E & Ho & _).
  destruct (nome_mercado_resultado k Hk) as [n Hn].
  assert (vb = ValueBet n (odd (item (_calcular_melhores_odds l) k))
                 (formato_pct1 (1 / odd (item (_calcular_melhores_odds l) k) / sum (x :: ovs)))
                 (casa_aposta (item (_calcular_melhores_odds l) k))) as ->.
  { unfold aposta in E. rewrite Hn in E.
    destruct (gt _ _ && gt _ _); [|done]. by injection E as <-. }
  cbn [vb_mercado vb_odd vb_casa_aposta].
  rewrite item_calcular in *.
  destruct (vencedor_origem k l (Melhor 0 "")) as [E'|(c & Hc & Hq & Hnm & _)].
  - rewrite E' in Ho. simpl in Ho. lra.
  - exists k, c. apply candidata_cotacao in Hq. done.
Qed.

Lemma value_bet_tem_cotacao_witness :
  exists k c, k ∈ mercados_resultado /\ nome_mercado k = Retorna "Vitória Fora" /\
              c ∈ [bookmaker "BookA" [("away", 1.2)] []] /\ nome c = "BookA" /\
              cotacao c k = Some 1.2 /\ 0 < 1.2.
Proof.
  apply (value_bet_tem_cotacao [bookmaker "BookA" [("away", 1.2)] []]
           (Analise [ValueBet "Vitória Fora" 1.2 "100.0%" "BookA"] (-200 # 12)
                    "🎯 1 VALUE BET(S) IDENTIFICADO(S)")
           (ValueBet "Vitória Fora" 1.2 "100.0%" "BookA")).
  - vm_compute. reflexivity.
  - apply list_elem_of_here.
Defined.

Lemma apostas_no_maximo_uma (m : melhores_odds) (x : Q) (ovs : list Q) :
  flat_map (bruta m) mercados_resultado = x :: ovs ->
  (length (flat_map (aposta m (x :: ovs)) mercados_resultado) <= 1)%nat.
Proof.
  intros E.
  pose proof (bruta_pos m mercados_resultado) as Hpos.
  pose proof (sum_bruta m) as Hsum.
  pose proof (sum_bruta_nonneg m casa) as Hc.
  pose proof (sum_bruta_nonneg m empate) as He.
  pose proof (sum_bruta_nonneg m fora) as Hf.
  rewrite E in Hpos, Hsum.
  assert (0 < sum (x :: ovs)) as HS by (by apply sum_pos).
  simpl. rewrite !length_app. simpl.
  destruct (aposta_cases m (x :: ovs) casa) as [->|(vc & -> & _ & _ & Pc)];
    destruct (aposta_cases m (x :: ovs) empate) as [->|(ve & -> & _ & _ & Pe)];
    destruct (aposta_cases m (x :: ovs) fora) as [->|(vf & -> & _ & _ & Pf)];
    simpl; try lia; exfalso;
    repeat match goal with H : 0 < sum _ -> _ |- _ => specialize (H HS) end;
    unfold limiar in *; lra.
Qed.

(** X8.  When the analysis returns, the recommendation is the waiting text
    and [value_bets] is empty, or [value_bets] has one entry and the text
    announces exactly one value bet. *)
Theorem recomendacao_casos (m : melhores_odds) (a : analise) :
  _analisar_valor_odds m = Retorna a ->
  (value_bets a = [] /\
   recomendacao a = "⚡ Aguardando melhores oportunidades") \/
  (exists vb, value_bets a = [vb] /\
   recomendacao a = "🎯 1 VALUE BET(S) IDENTIFICADO(S)").
Proof.
  intros Ha. apply analisar_Retorna in Ha. subst a.
  destruct (flat_map (bruta m) mercados_resultado) as [|x ovs] eqn:E; [by left|].
  pose proof (apostas_no_maximo_uma m x ovs E) as Hlen.
  cbn [value_bets recomendacao].
  destruct (flat_map (aposta m (x :: ovs)) mercados_resultado) as [|vb [|vb' vbs]].
  - by left.
  - right. by exists vb.
  - simpl in Hlen. lia.
Qed.

Lemma recomendacao_casos_witness :
  (value_bets (Analise [ValueBet "Vitória Casa" 1.2 "75.0%" "A"] (7200 # 648)
                 "🎯 1 VALUE BET(S) IDENTIFICADO(S)") = [] /\
   recomendacao (Analise [ValueBet "Vitória Casa" 1.2 "75.0%" "A"] (7200 # 648)
                   "🎯 1 VALUE BET(S) IDENTIFICADO(S)") =
     "⚡ Aguardando melhores oportunidades") \/
  (exists vb,
     value_bets (Analise [ValueBet "Vitória Casa" 1.2 "75.0%" "A"] (7200 # 648)
                   "🎯 1 VALUE BET(S) IDENTIFICADO(S)") = [vb] /\
     recomendacao (Analise [ValueBet "Vitória Casa" 1.2 "75.0%" "A"] (7200 # 648)
                     "🎯 1 VALUE BET(S) IDENTIFICADO(S)") =
       "🎯 1 VALUE BET(S) IDENTIFICADO(S)").
Proof.
  apply (recomendacao_casos
           (MelhoresOdds (Melhor 1.2 "A") (Melhor 6 "B") (Melhor 9 "C") (Melhor 0 "") (Melhor 0 ""))).
  vm_compute. reflexivity.
Defined.

(** X9.  With a margin that is not negative, only a price below 5/3 can be a
    value bet. *)
Theorem value_bet_preco_baixo (m : melhores_odds) (a : analise) (vb : value_bet) :
  _analisar_valor_odds m = Retorna a ->
  0 <= margem_mercado a ->
  vb ∈ value_bets a ->
  0 < vb_odd vb /\ vb_odd vb < 5 # 3.
Proof.
  intros Ha Hm Hin. apply analisar_Retorna in Ha. subst a.
  pose proof (bruta_pos m mercados_resultado) as Hpos.
  destruct (flat_map (bruta m) mercados_resultado) as [|x ovs];
    [by apply elem_of_nil in Hin|].
  assert (0 < sum (x :: ovs)) as HS by (by apply sum_pos).
  cbn [value_bets margem_mercado] in *.
  apply elem_of_flat_map_aposta in Hin as (k & Hk & E & Ho & Hp).
  assert (vb_odd vb = odd (item m k)) as ->.
  { unfold aposta in E. destruct (gt _ _ && gt _ _); [|done]. by injection E as <-. }
  split; [done|].
  apply Qlt_div_mult in Hp; [|done]. unfold limiar in Hp.
  assert (odd (item m k) * (1 / odd (item m k)) == 1) as E1 by (field; lra).
  assert (odd (item m k) * 0.6 < odd (item m k) * (1 / odd (item m k))) as Hlt.
  { apply Qmult_lt_l; [done|]. lra. }
  lra.
Qed.

Lemma value_bet_preco_baixo_witness : 0 < 1.2 /\ 1.2 < 5 # 3.
Proof.
  apply (value_bet_preco_baixo
           (MelhoresOdds (Melhor 1.2 "A") (Melhor 6 "B") (Melhor 9 "C") (Melhor 0 "") (Melhor 0 ""))
           (Analise [ValueBet "Vitória Casa" 1.2 "75.0%" "A"] (7200 # 648)
                    "🎯 1 VALUE BET(S) IDENTIFICADO(S)")
           (ValueBet "Vitória Casa" 1.2 "75.0%" "A")).
  - vm_compute. reflexivity.
  - vm_compute. discriminate.
  - apply list_elem_of_here.
Defined.

Lemma formato_pct1_um (q : Q) : q == 1 -> formato_pct1 q = "100.0%".
Proof.
  destruct q as [n d]. unfold Qeq. simpl. intros H.
  assert (n = Zpos d) as -> by lia.
  unfold formato_pct1, arredondar. simpl Qnum. simpl Qden.
  rewrite Z.abs_eq by lia.
  rewrite (Z.mul_comm (Zpos d) 1000), Z.div_mul, Z.mod_mul by lia.
  assert ((Zpos d <? 2 * 0)%Z = false) as -> by (apply Z.ltb_ge; lia).
  assert ((2 * 0 =? Zpos d)%Z = false) as -> by (apply Z.eqb_neq; lia).
  reflexivity.
Qed.

Lemma flat_map_resultado {B : Type} (f : mercado -> list B) :
  flat_map f mercados_resultado = (f casa ++ f empate ++ f fora)%list.
Proof. simpl. by rewrite app_nil_r. Qed.

(** X7.  When one of home, draw and away is the only priced outcome and its
    price [p] is in range (between 1e-300 and 1e300), it is reported as a
    value bet, at 100.0%, and the margin is, in exact arithmetic,
    [(1/p - 1) * 100]. *)
Theorem unico_preco_e_value_bet (m : melhores_odds) (k : mercado) :
  k ∈ mercados_resultado ->
  0 < odd (item m k) ->
  na_faixa (odd (item m k)) = true ->
  (forall k', k' ∈ mercados_resultado -> k' <> k -> odd (item m k') <= 0) ->
  exists n a,
    nome_mercado k = Retorna n /\
    _analisar_valor_odds m = Retorna a /\
    value_bets a = [ValueBet n (odd (item m k)) "100.0%" (casa_aposta (item m k))] /\
    margem_mercado a == (1 / odd (item m k) - 1) * 100.
Proof.
  intros Hk Ho _ Hout.
  destruct (nome_mercado_resultado k Hk) as [n Hn]. exists n.
  rewrite analisar_puro. eexists. split; [done|]. split; [reflexivity|].
  assert (forall k', k' ∈ mercados_resultado -> k' <> k -> bruta m k' = []) as Hb.
  { intros k' Hk' Hne. unfold bruta. by rewrite (proj2 (gt_le _ 0)) by auto. }
  assert (forall ovs k', k' ∈ mercados_resultado -> k' <> k -> aposta m ovs k' = []) as Ha.
  { intros ovs k' Hk' Hne. unfold aposta. by rewrite (proj2 (gt_le _ 0)) by auto. }
  assert (bruta m k = [1 / odd (item m k)]) as Hbk.
  { unfold bruta. by rewrite (proj2 (gt_lt _ 0)). }
  assert (1 / odd (item m k) / sum [1 / odd (item m k)] == 1) as Hone.
  { rewrite sum_cons. change (sum []) with 0.
    assert (0 < 1 / odd (item m k)).
    { unfold Qdiv. rewrite Qmult_1_l. by apply Qinv_lt_0_compat. }
    field. lra. }
  assert (aposta m [1 / odd (item m k)] k =
          [ValueBet n (odd (item m k)) "100.0%" (casa_aposta (item m k))]) as Hak.
  { unfold aposta. rewrite Hn, (proj2 (gt_lt _ 0)) by done.
    rewrite (proj2 (gt_lt _ limiar)) by (unfold limiar; lra).
    simpl. by rewrite formato_pct1_um. }
  unfold mercados_resultado in Hk.
  repeat (apply elem_of_cons in Hk as [->|Hk]); [| | |by apply elem_of_nil in Hk];
    rewrite flat_map_resultado, Hbk, !Hb
      by (first [discriminate | unfold mercados_resultado; repeat constructor]);
    cbn [app]; lazy beta iota zeta;
    rewrite flat_map_resultado, Hak, !Ha
      by (first [discriminate | unfold mercados_resultado; repeat constructor]);
    cbn [app value_bets margem_mercado];
    (split; [done|]); rewrite sum_cons; change (sum []) with 0; lra.
Qed.

Lemma unico_preco_witness :
  exists n a,
    nome_mercado fora = Retorna n /\
    _analisar_valor_odds (_calcular_melhores_odds [bookmaker "BookA" [("away", 1.2)] []])
      = Retorna a /\
    value_bets a = [ValueBet n 1.2 "100.0%" "BookA"] /\
    margem_mercado a == (1 / 1.2 - 1) * 100.
Proof.
  apply (unico_preco_e_value_bet
           (_calcular_melhores_odds [bookmaker "BookA" [("away", 1.2)] []]) fora).
  - unfold mercados_resultado. repeat constructor.
  - reflexivity.
  - vm_compute. reflexivity.
  - intros k' _ Hne. destruct k'; first [by destruct Hne | vm_compute; discriminate].
Defined.

(** ** More on [analyze_trend] *)

Lemma ultimos_curto (hs : list snapshot) :
  ultimos hs = None <-> (length hs < 2)%nat.
Proof.
  induction hs as [|h1 hs IH]; [simpl; split; [lia|done]|].
  destruct hs as [|h2 [|h3 hs]].
  - simpl. split; [lia|done].
  - simpl. split; [done|lia].
  - change (ultimos (h1 :: h2 :: h3 :: hs)) with (ultimos (h2 :: h3 :: hs)).
    rewrite IH. simpl. lia.
Qed.

(** X11.  [analyze_trend] prints nothing exactly when the history has fewer than
    two snapshots; otherwise it prints the header first. *)
Theorem analyze_trend_vazio (hs : list snapshot) :
  match analyze_trend hs with
  | [] => (length hs < 2)%nat
  | s :: _ => s = Cabecalho /\ (2 <= length hs)%nat
  end.
Proof.
  unfold analyze_trend. pose proof (ultimos_curto hs) as H.
  destruct (ultimos hs) as [[p c]|].
  - split; [done|].
    destruct (decide (length hs < 2)%nat) as [Hl|Hl]; [|lia].
    apply H in Hl. done.
  - by apply H.
Qed.

Lemma sem_linha_filter (current previous : snapshot) (market : string) :
  (forall c t a, Linha market c t a ∉ compare current previous) ->
  List.filter (linha_de market) (compare current previous) = [].
Proof.
  intros Hno.
  destruct (List.filter (linha_de market) (compare current previous)) as [|s l] eqn:E;
    [done|].
  assert (In s (List.filter (linha_de market) (compare current previous))) as Hin
    by (rewrite E; by left).
  apply List.filter_In in Hin as [Hin Hm]. apply list_elem_of_In in Hin.
  destruct s as [|mk c t a]; [done|]. simpl in Hm.
  apply bool_decide_eq_true in Hm. subst mk. by apply Hno in Hin.
Qed.

(** X12.  A price of zero counts as missing: a market whose current or previous
    price is zero has no line. *)
Theorem preco_zero_sem_linha (current previous : snapshot) (market : string) (z : Q) :
  z == 0 ->
  get current market = Some z \/ get previous market = Some z ->
  List.filter (linha_de market) (compare current previous) = [].
Proof.
  intros Hz Hget. apply sem_linha_filter.
  intros c t a (mk & _ & Hin)%elem_of_compare.
  apply elem_of_linha_mercado in Hin as (c1 & p1 & Hc1 & Hp1 & Hc0 & Hp0 & E).
  injection E as -> -> -> ->.
  destruct Hget as [Hg|Hg]; rewrite Hg in *; congruence.
Qed.

Lemma preco_zero_sem_linha_witness :
  List.filter (linha_de "draw")
    (compare (instantaneo [("home", 2.10); ("draw", 0)] 2)
             (instantaneo [("home", 2.00); ("draw", 3.20)] 1)) = [].
Proof.
  apply (preco_zero_sem_linha _ _ "draw" 0).
  - reflexivity.
  - left. reflexivity.
Defined.

(** X13.  Comparing the two snapshots the other way round gives a line for the
    same markets, with the same size of change and the arrow reversed. *)
Theorem compare_invertido (current previous : snapshot) (market : string)
    (c : Q) (t : string) (a : Q) :
  Linha market c t a ∈ compare current previous ->
  exists p t' a',
    Linha market p t' a' ∈ compare previous current /\
    get previous market = Some p /\ a' == a /\
    ((t = "↑" /\ t' = "↓") \/ (t = "↓" /\ t' = "↑") \/ (t = "→" /\ t' = "→")).
Proof.
  intros (mk & Hmk & Hin)%elem_of_compare.
  apply elem_of_linha_mercado in Hin as (c1 & p1 & Hc1 & Hp1 & Hc0 & Hp0 & E).
  injection E as -> -> -> ->.
  exists p1, (trend (change p1 c1)), (Qabs (change p1 c1)). split; [|split; [done|split]].
  - apply elem_of_compare. exists mk. split; [done|].
    unfold linha_mercado. rewrite Hc1, Hp1.
    rewrite (proj2 (truthy_Some c1)), (proj2 (truthy_Some p1)) by done.
    apply list_elem_of_here.
  - unfold change. assert (p1 - c1 == - (c1 - p1)) as -> by lra. apply Qabs_opp.
  - unfold change.
    destruct (trend_cases (c1 - p1)) as (U & D & F).
    destruct (trend_cases (p1 - c1)) as (U' & D' & F').
    destruct (Q_dec (c1 - p1) 0) as [[Hlt|Hgt]|Heq].
    + right; left. split; [apply D; lra|apply U'; lra].
    + left. split; [apply U; lra|apply D'; lra].
    + right; right. split; [apply F; lra|apply F'; lra].
Qed.

Lemma compare_invertido_witness :
  exists p t' a',
    Linha "home" p t' a'
      ∈ compare (instantaneo [("home", 2.00); ("away", 3.50)] 1)
                (instantaneo [("home", 2.10); ("draw", 3.20)] 2) /\
    get (instantaneo [("home", 2.00); ("away", 3.50)] 1) "home" = Some p /\
    a' == Qabs (change 2.10 2.00) /\
    ((trend (change 2.10 2.00) = "↑" /\ t' = "↓") \/
     (trend (change 2.10 2.00) = "↓" /\ t' = "↑") \/
     (trend (change 2.10 2.00) = "→" /\ t' = "→")).
Proof.
  apply (compare_invertido (instantaneo [("home", 2.10); ("draw", 3.20)] 2)
           (instantaneo [("home", 2.00); ("away", 3.50)] 1) "home" 2.10).
  apply elem_of_compare. exists "home". split; [apply list_elem_of_here|].
  apply list_elem_of_here.
Defined.

(** ** [_processar_jogos_brasileiros] *)

Lemma preencher_app (l1 l2 : list resultado_bruto) (acc : gmap string Q) :
  preencher (l1 ++ l2) acc = (t <- preencher l1 acc ;; preencher l2 t).
Proof.
  revert acc. induction l1 as [|r l1 IH]; intros acc; simpl; [done|].
  destruct (rb_price r) as [p|]; simpl; [|done].
  destruct (rb_name r) as [n|]; simpl; [|done].
  apply IH.
Qed.

Lemma preencher_legivel (l : list resultado_bruto) (acc : gmap string Q) :
  match preencher l acc with
  | Retorna _ => forallb resultado_completo l = true
  | Levanta e => e = KeyError /\ forallb resultado_completo l = false
  end.
Proof.
  revert acc. induction l as [|r l IH]; intros acc; simpl; [done|].
  destruct r as [[n|] [p|]]; simpl; try done. apply IH.
Qed.

Lemma preencher_ausente (l : list resultado_bruto) (acc t : gmap string Q) (n : string) :
  preencher l acc = Retorna t ->
  (forall r, r ∈ l -> rb_name r <> Some n) ->
  t !! n = acc !! n.
Proof.
  revert acc. induction l as [|r l IH]; intros acc; simpl.
  - by intros [= ->].
  - destruct (rb_price r) as [p|] eqn:Ep; simpl; [|done].
    destruct (rb_name r) as [n'|] eqn:En; simpl; [|done].
    intros Hret Hnot. rewrite (IH _ Hret).
    + rewrite lookup_insert_ne; [done|]. intros ->.
      apply (Hnot r); [apply list_elem_of_here|done].
    + intros r' Hr'. apply Hnot. by apply list_elem_of_further.
Qed.

Lemma preencher_origem (l : list resultado_bruto) (acc t : gmap string Q) (n : string) (p : Q) :
  preencher l acc = Retorna t -> t !! n = Some p ->
  acc !! n = Some p \/ exists r, r ∈ l /\ rb_name r = Some n /\ rb_price r = Some p.
Proof.
  revert acc. induction l as [|r l IH]; intros acc; simpl.
  - intros [= ->]. by left.
  - destruct (rb_price r) as [q|] eqn:Ep; simpl; [|done].
    destruct (rb_name r) as [n'|] eqn:En; simpl; [|done].
    intros Hret Hl. destruct (IH _ Hret Hl) as [Hacc|(r' & Hin & Hn & Hp)].
    + destruct (decide (n' = n)) as [->|Hne].
      * rewrite lookup_insert_eq in Hacc. injection Hacc as ->.
        right. exists r. split; [apply list_elem_of_here|done].
      * rewrite lookup_insert_ne in Hacc by done. by left.
    + right. exists r'. split; [by apply list_elem_of_further|done].
Qed.

(** X14.  The price table of a market: a name that several outcomes carry keeps
    the price of the last one, and a name that no outcome carries is not in
    the table. *)
Theorem tabela_ultimo_vence (outcomes : list resultado_bruto) (t : gmap string Q) :
  preencher outcomes ∅ = Retorna t ->
  (forall n, (forall r, r ∈ outcomes -> rb_name r <> Some n) -> t !! n = None) /\
  (forall l1 l2 n p,
     outcomes = (l1 ++ ResultadoBruto (Some n) (Some p) :: l2)%list ->
     (forall r, r ∈ l2 -> rb_name r <> Some n) -> t !! n = Some p).
Proof.
  intros Hret. split.
  - intros n Hn. by rewrite (preencher_ausente _ _ _ n Hret Hn), lookup_empty.
  - intros l1 l2 n p -> Hn. rewrite preencher_app in Hret.
    destruct (preencher l1 ∅) as [t1|e]; simpl in Hret; [|done].
    rewrite (preencher_ausente _ _ _ n Hret Hn). apply lookup_insert_eq.
Qed.

Lemma tabela_ultimo_vence_witness :
  (forall n,
     (forall r, r ∈ [ResultadoBruto (Some "Draw") (Some 3.10);
                     ResultadoBruto (Some "Draw") (Some 3.20)] -> rb_name r <> Some n) ->
     (<["Draw" := 3.20]> (<["Draw" := 3.10]> ∅) : gmap string Q) !! n = None) /\
  (forall l1 l2 n p,
     [ResultadoBruto (Some "Draw") (Some 3.10); ResultadoBruto (Some "Draw") (Some 3.20)] =
       (l1 ++ ResultadoBruto (Some n) (Some p) :: l2)%list ->
     (forall r, r ∈ l2 -> rb_name r <> Some n) ->
     (<["Draw" := 3.20]> (<["Draw" := 3.10]> ∅) : gmap string Q) !! n = Some p).
Proof.
  apply (tabela_ultimo_vence
           [ResultadoBruto (Some "Draw") (Some 3.10); ResultadoBruto (Some "Draw") (Some 3.20)]).
  reflexivity.
Defined.

Lemma processar_mercados_legivel (ms : list mercado_bruto)
    (acc : gmap string (gmap string Q)) :
  match processar_mercados ms acc with
  | Retorna _ => forallb mercado_legivel ms = true
  | Levanta e => e = KeyError /\ forallb mercado_legivel ms = false
  end.
Proof.
  revert acc. induction ms as [|m ms IH]; intros acc; simpl; [done|].
  unfold mercado_legivel at 1 3.
  destruct (mb_key m) as [k|]; simpl; [|done].
  destruct (decide (k = "h2h")) as [->|Hh].
  - simpl. destruct (mb_outcomes m) as [outs|]; simpl; [|done].
    pose proof (preencher_legivel outs ∅) as Hp.
    destruct (preencher outs ∅) as [t|e]; simpl.
    + rewrite Hp. simpl. apply IH.
    + destruct Hp as [-> ->]. done.
  - rewrite (bool_decide_eq_false_2 (k = "h2h")) by done. simpl.
    destruct (decide (k = "totals")) as [->|Ht].
    + simpl. destruct (mb_outcomes m) as [outs|]; simpl; [|done].
      pose proof (preencher_legivel outs ∅) as Hp.
      destruct (preencher outs ∅) as [t|e]; simpl.
      * rewrite Hp. simpl. apply IH.
      * destruct Hp as [-> ->]. done.
    + rewrite (bool_decide_eq_false_2 (k = "totals")) by done. simpl. apply IH.
Qed.

(** The table under "resultado" comes from an "h2h" market, the one under
    "over_under" from a "totals" market. *)
Lemma processar_mercados_origem (ms : list mercado_bruto)
    (acc r : gmap string (gmap string Q)) (tab tipo : string) (t : gmap string Q) :
  (tab = "resultado" /\ tipo = "h2h") \/ (tab = "over_under" /\ tipo = "totals") ->
  processar_mercados ms acc = Retorna r -> r !! tab = Some t ->
  acc !! tab = Some t \/
  exists m outs, m ∈ ms /\ mb_key m = Some tipo /\ mb_outcomes m = Some outs /\
                 preencher outs ∅ = Retorna t.
Proof.
  intros Htab. revert acc. induction ms as [|m ms IH]; intros acc; simpl.
  - intros [= ->]. by left.
  - destruct (mb_key m) as [k|] eqn:Ek; simpl; [|done].
    assert (forall acc', processar_mercados ms acc' = Retorna r -> r !! tab = Some t ->
              acc' !! tab = Some t \/
              exists m' outs, m' ∈ m :: ms /\ mb_key m' = Some tipo /\
                              mb_outcomes m' = Some outs /\ preencher outs ∅ = Retorna t) as IH'.
    { intros acc' H1 H2. destruct (IH acc' H1 H2) as [?|(m' & outs & Hin & ?)]; [by left|].
      right. exists m', outs. split; [by apply list_elem_of_further|done]. }
    destruct (decide (k = "h2h")) as [->|Hh]; [|destruct (decide (k = "totals")) as [->|Ht]].
    + destruct (mb_outcomes m) as [outs|] eqn:Eo; simpl; [|done].
      destruct (preencher outs ∅) as [t'|e] eqn:Ep; simpl; [|done].
      intros H1 H2. destruct (IH' _ H1 H2) as [Hacc|?]; [|by right].
      destruct Htab as [[-> ->]|[-> ->]].
      * rewrite lookup_insert_eq in Hacc. injection Hacc as ->.
        right. exists m, outs. split; [apply list_elem_of_here|done].
      * rewrite lookup_insert_ne in Hacc by done. by left.
    + destruct (mb_outcomes m) as [outs|] eqn:Eo; simpl; [|done].
      destruct (preencher outs ∅) as [t'|e] eqn:Ep; simpl; [|done].
      intros H1 H2. destruct (IH' _ H1 H2) as [Hacc|?]; [|by right].
      destruct Htab as [[-> ->]|[-> ->]].
      * rewrite lookup_insert_ne in Hacc by done. by left.
      * rewrite lookup_insert_eq in Hacc. injection Hacc as ->.
        right. exists m, outs. split; [apply list_elem_of_here|done].
    + apply IH'.
Qed.

Lemma processar_casa_legivel (cb : casa_bruta) :
  match processar_casa cb with
  | Retorna ci => casa_legivel cb = true /\ nome ci = default "" (cb_title cb)
  | Levanta e => e = KeyError /\ casa_legivel cb = false
  end.
Proof.
  unfold processar_casa, casa_legivel.
  pose proof (processar_mercados_legivel (default [] (cb_markets cb)) ∅) as H.
  destruct (processar_mercados (default [] (cb_markets cb)) ∅); simpl; done.
Qed.

(** A quote of a processed bookmaker is the price of an outcome with the
    expected name in a market of the expected kind. *)
Lemma cotacao_origem (cb : casa_bruta) (ci : casa_info) (k : mercado) (p : Q) :
  processar_casa cb = Retorna ci -> cotacao ci k = Some p ->
  exists m r, m ∈ default [] (cb_markets cb) /\ mb_key m = Some (origem k).1 /\
              r ∈ default [] (mb_outcomes m) /\ rb_name r = Some (origem k).2 /\
              rb_price r = Some p.
Proof.
  unfold processar_casa.
  destruct (processar_mercados (default [] (cb_markets cb)) ∅) as [ms|e] eqn:E; simpl; [|done].
  intros [= <-] Hc.
  assert (exists tab t, ((tab = "resultado" /\ (origem k).1 = "h2h") \/
                         (tab = "over_under" /\ (origem k).1 = "totals")) /\
                        ms !! tab = Some t /\ t !! (origem k).2 = Some p)
    as (tab & t & Htab & Ht & Hp).
  { destruct k; simpl in Hc; unfold resultado_de, over_under_de in Hc; simpl in Hc.
    all: match type of Hc with
         | default ∅ (?mm !! ?tab) !! _ = _ =>
             destruct (mm !! tab) as [t|] eqn:Et; simpl in Hc;
             [exists tab, t; simpl; eauto 10 | by rewrite lookup_empty in Hc]
         end. }
  destruct (processar_mercados_origem _ _ _ tab (origem k).1 t Htab E Ht)
    as [Hacc|(m & outs & Hin & Hk & Ho & Hpre)].
  - by rewrite lookup_empty in Hacc.
  - destruct (preencher_origem _ _ _ _ _ Hpre Hp) as [Hacc|(r & Hr & Hn & Hpr)].
    + by rewrite lookup_empty in Hacc.
    + exists m, r. rewrite Ho. done.
Qed.

Lemma processar_casas_spec (bs : list casa_bruta) (acc : list casa_info) :
  match processar_casas bs acc with
  | Retorna r =>
      forallb casa_legivel bs = true /\
      exists cis, r = (acc ++ cis)%list /\
                  Forall2 (fun cb ci => processar_casa cb = Retorna ci) bs cis
  | Levanta e => e = KeyError /\ forallb casa_legivel bs = false
  end.
Proof.
  revert acc. induction bs as [|cb bs IH]; intros acc; simpl.
  - split; [done|]. exists []. by rewrite app_nil_r.
  - pose proof (processar_casa_legivel cb) as Hc.
    destruct (processar_casa cb) as [ci|e] eqn:E; simpl.
    + destruct Hc as [-> _]. simpl. specialize (IH (acc ++ [ci])%list).
      destruct (processar_casas bs (acc ++ [ci])) as [r|e]; [|done].
      destruct IH as [-> (cis & -> & HF)]. split; [done|].
      exists (ci :: cis). rewrite <- app_assoc. split; [done|]. by constructor.
    + destruct Hc as [-> ->]. done.
Qed.

Lemma processar_jogo_spec (jogo : jogo_bruto) (campeonato agora : string) :
  match processar_jogo jogo campeonato agora with
  | Retorna info =>
      jogo_legivel jogo = true /\
      Forall2 (fun cb ci => processar_casa cb = Retorna ci)
        (default [] (jb_bookmakers jogo)) (j_casas_apostas info) /\
      info = InfoJogo campeonato
               (default "" (jb_sport_title jogo)) (default "" (jb_home_team jogo))
               (default "" (jb_away_team jogo)) (default "" (jb_commence_time jogo))
               agora (j_casas_apostas info)
               (_calcular_melhores_odds (j_casas_apostas info))
               (j_analise_valor info) /\
      _analisar_valor_odds (_calcular_melhores_odds (j_casas_apostas info)) =
        Retorna (j_analise_valor info)
  | Levanta e => e = KeyError /\ jogo_legivel jogo = false
  end.
Proof.
  unfold processar_jogo, jogo_legivel.
  pose proof (processar_casas_spec (default [] (jb_bookmakers jogo)) []) as H.
  destruct (processar_casas (default [] (jb_bookmakers jogo)) []) as [casas|e]; simpl; [|done].
  destruct H as [-> (cis & -> & HF)]. simpl.
  rewrite analisar_puro. simpl. rewrite analisar_puro. done.
Qed.

Lemma processar_jogos_spec (ds : list jogo_bruto) (campeonato : string)
    (agora : nat -> string) (i : nat) (acc : list info_jogo) :
  match processar_jogos ds campeonato agora i acc with
  | Retorna r =>
      forallb jogo_legivel ds = true /\
      exists infos, r = (acc ++ infos)%list /\ length infos = length ds /\
        forall n jogo, ds !! n = Some jogo ->
          exists info, infos !! n = Some info /\
                       processar_jogo jogo campeonato (agora (i + n)%nat) = Retorna info
  | Levanta e => e = KeyError /\ forallb jogo_legivel ds = false
  end.
Proof.
  revert i acc. induction ds as [|jogo ds IH]; intros i acc; simpl.
  - split; [done|]. exists []. rewrite app_nil_r. repeat split; try done.
  - pose proof (processar_jogo_spec jogo campeonato (agora i)) as Hj.
    destruct (processar_jogo jogo campeonato (agora i)) as [info|e] eqn:E; simpl.
    + destruct Hj as [-> _]. simpl. specialize (IH (S i) (acc ++ [info])%list).
      destruct (processar_jogos ds campeonato agora (S i) (acc ++ [info])) as [r|e]; [|done].
      destruct IH as [-> (infos & -> & Hlen & Hn)]. split; [done|].
      exists (info :: infos). rewrite <- app_assoc. split; [done|]. split; [simpl; lia|].
      intros [|n] jogo' Hl; simpl in Hl.
      * injection Hl as <-. exists info. rewrite Nat.add_0_r. done.
      * destruct (Hn n jogo' Hl) as (info' & Hi & Hp). exists info'. split; [done|].
        by replace (i + S n)%nat with (S i + n)%nat by lia.
    + destruct Hj as [-> ->]. done.
Qed.

Lemma processar_retorno (dados : list jogo_bruto) (campeonato : string)
    (agora : nat -> string) :
  match _processar_jogos_brasileiros dados campeonato agora with
  | Retorna jogos =>
      forallb jogo_legivel dados = true /\ length jogos = length dados
  | Levanta e => e = KeyError /\ forallb jogo_legivel dados = false
  end.
Proof.
  unfold _processar_jogos_brasileiros.
  pose proof (processar_jogos_spec dados campeonato agora 0 []) as H.
  destruct (processar_jogos dados campeonato agora 0 []) as [r|e]; [|done].
  destruct H as [-> (infos & -> & Hlen & _)]. done.
Qed.

(** X15.  Processing raises when some game cannot be read.  When every game
    can be read and every price is in range, it returns one entry per
    game. *)
Theorem processar_legivel (dados : list jogo_bruto) (campeonato : string)
    (agora : nat -> string) :
  (forallb jogo_legivel dados = false ->
   exists e, _processar_jogos_brasileiros dados campeonato agora = Levanta e) /\
  (forallb jogo_legivel dados = true -> forallb jogo_ok dados = true ->
   exists jogos, _processar_jogos_brasileiros dados campeonato agora = Retorna jogos /\
                 length jogos = length dados).
Proof.
  pose proof (processar_retorno dados campeonato agora) as H.
  destruct (_processar_jogos_brasileiros dados campeonato agora) as [jogos|e].
  - destruct H as [Hl Hlen]. split; [congruence|eauto].
  - destruct H as [_ Hl]. split; [eauto|congruence].
Qed.

Lemma processar_legivel_witness :
  exists jogos,
    _processar_jogos_brasileiros [jogo_api] "soccer_brazil_campeonato" (relogio_exemplo 0)
      = Retorna jogos /\
    length jogos = length [jogo_api].
Proof.
  apply (proj2 (processar_legivel [jogo_api] "soccer_brazil_campeonato" (relogio_exemplo 0)));
    reflexivity.
Defined.

Lemma processar_lookup (dados : list jogo_bruto) (campeonato : string)
    (agora : nat -> string) (jogos : list info_jogo) (i : nat) (jogo : jogo_bruto) :
  _processar_jogos_brasileiros dados campeonato agora = Retorna jogos ->
  dados !! i = Some jogo ->
  exists info, jogos !! i = Some info /\
               processar_jogo jogo campeonato (agora i) = Retorna info.
Proof.
  unfold _processar_jogos_brasileiros. intros Hret Hi.
  pose proof (processar_jogos_spec dados campeonato agora 0 []) as H.
  rewrite Hret in H. destruct H as [_ (infos & -> & _ & Hn)]. by apply Hn.
Qed.

(** X16.  The entry of game [i] copies the teams, the title and the start time
    of the raw game (the empty string for an absent key), carries the clock
    reading of its turn, one bookmaker entry per raw bookmaker in the same
    order, the best prices of these entries and the analysis of those. *)
Theorem processar_campos (dados : list jogo_bruto) (campeonato : string)
    (agora : nat -> string) (jogos : list info_jogo) (i : nat) (jogo : jogo_bruto) :
  _processar_jogos_brasileiros dados campeonato agora = Retorna jogos ->
  dados !! i = Some jogo ->
  exists info, jogos !! i = Some info /\
    j_campeonato info = campeonato /\
    j_titulo_campeonato info = default "" (jb_sport_title jogo) /\
    j_time_casa info = default "" (jb_home_team jogo) /\
    j_time_fora info = default "" (jb_away_team jogo) /\
    j_data_hora info = default "" (jb_commence_time jogo) /\
    j_timestamp_coleta info = agora i /\
    map nome (j_casas_apostas info) =
      map (fun cb => default "" (cb_title cb)) (default [] (jb_bookmakers jogo)) /\
    j_melhores_odds info = _calcular_melhores_odds (j_casas_apostas info) /\
    _analisar_valor_odds (j_melhores_odds info) = Retorna (j_analise_valor info).
Proof.
  intros Hret Hi. destruct (processar_lookup _ _ _ _ _ _ Hret Hi) as (info & Hl & Hp).
  exists info. split; [done|].
  pose proof (processar_jogo_spec jogo campeonato (agora i)) as H. rewrite Hp in H.
  destruct H as (_ & HF & E & Ha). rewrite E. cbn. repeat split; try done.
  clear E Ha. induction HF as [|cb ci bs cis Hc HF IH]; [done|]. simpl. f_equal; [|done].
  pose proof (processar_casa_legivel cb) as H. rewrite Hc in H. by destruct H.
Qed.

Lemma Forall2_elem_r {A B : Type} (R : A -> B -> Prop) (l : list A) (k : list B) (y : B) :
  Forall2 R l k -> y ∈ k -> exists x, x ∈ l /\ R x y.
Proof.
  induction 1 as [|x y' l k HR HF IH]; intros Hin.
  - by apply elem_of_nil in Hin.
  - apply elem_of_cons in Hin as [->|Hin].
    + exists x. split; [apply list_elem_of_here|done].
    + destruct (IH Hin) as (x' & Hx & HR'). exists x'.
      split; [by apply list_elem_of_further|done].
Qed.

Lemma processar_jogo_sem_nome (jogo : jogo_bruto) (campeonato agora : string)
    (info : info_jogo) (k : mercado) :
  processar_jogo jogo campeonato agora = Retorna info ->
  ~ nomeia jogo (origem k).1 (origem k).2 ->
  item (j_melhores_odds info) k = Melhor 0 "".
Proof.
  intros Hp Hno.
  pose proof (processar_jogo_spec jogo campeonato agora) as H. rewrite Hp in H.
  destruct H as (_ & HF & E & _). rewrite E. cbn [j_melhores_odds].
  rewrite item_calcular.
  destruct (vencedor_origem k (j_casas_apostas info) (Melhor 0 ""))
    as [Hv|(ci & Hin & Hc & _)]; [done|].
  apply candidata_cotacao in Hc.
  destruct (Forall2_elem_r _ _ _ _ HF Hin) as (cb & Hcb & Hproc).
  destruct (cotacao_origem cb ci k _ Hproc Hc) as (m & r & Hm & Hk & Hr & Hn & _).
  exfalso. apply Hno. exists cb, m, r. done.
Qed.

(** X17.  A key of [melhores] is filled only from an outcome with the exact name
    the aggregator looks up: "home", "draw" or "away" in an "h2h" market,
    "Over 2.5" or "Under 2.5" in a "totals" market.  When no bookmaker of
    the game has such an outcome, the key stays unset. *)
Theorem sem_nome_sem_preco (dados : list jogo_bruto) (campeonato : string)
    (agora : nat -> string) (jogos : list info_jogo) (i : nat) (jogo : jogo_bruto)
    (info : info_jogo) (k : mercado) :
  _processar_jogos_brasileiros dados campeonato agora = Retorna jogos ->
  dados !! i = Some jogo -> jogos !! i = Some info ->
  ~ nomeia jogo (origem k).1 (origem k).2 ->
  item (j_melhores_odds info) k = Melhor 0 "".
Proof.
  intros Hret Hi Hj Hno.
  destruct (processar_lookup _ _ _ _ _ _ Hret Hi) as (info' & Hl & Hp).
  assert (info' = info) as -> by congruence.
  by eapply processar_jogo_sem_nome.
Qed.

(** X18.  A game whose "h2h" outcomes carry team names, none of them "home",
    "draw" or "away", gets the empty analysis: no value bet, margin 0 and
    the waiting recommendation. *)
Theorem nomes_de_times_sem_analise (dados : list jogo_bruto) (campeonato : string)
    (agora : nat -> string) (jogos : list info_jogo) (i : nat) (jogo : jogo_bruto)
    (info : info_jogo) :
  _processar_jogos_brasileiros dados campeonato agora = Retorna jogos ->
  dados !! i = Some jogo -> jogos !! i = Some info ->
  (forall n, n ∈ ["home"; "draw"; "away"] -> ~ nomeia jogo "h2h" n) ->
  j_analise_valor info = Analise [] 0 "⚡ Aguardando melhores oportunidades".
Proof.
  intros Hret Hi Hj Hno.
  destruct (processar_lookup _ _ _ _ _ _ Hret Hi) as (info' & Hl & Hp).
  assert (info' = info) as -> by congruence.
  pose proof (processar_jogo_spec jogo campeonato (agora i)) as Hs. rewrite Hp in Hs.
  destruct Hs as (_ & _ & E & Ha).
  assert (j_melhores_odds info = _calcular_melhores_odds (j_casas_apostas info)) as Em
    by (rewrite E; reflexivity).
  rewrite <- Em in Ha.
  assert (sem_preco (j_melhores_odds info)) as Hsem.
  { intros k Hk.
    rewrite (processar_jogo_sem_nome jogo campeonato (agora i) info k Hp); [simpl; lra|].
    unfold mercados_resultado in Hk.
    repeat (apply elem_of_cons in Hk as [->|Hk]); simpl;
      [apply Hno; repeat constructor..|by apply elem_of_nil in Hk]. }
  rewrite analisar_puro, sem_preco_bruta in Ha by done. by injection Ha as <-.
Qed.

Ltac sem_nome_api :=
  intros (c & m & r & Hc & Hm & Hk & Hr & Hn);
  simpl in Hc; apply list_elem_of_singleton in Hc; subst c;
  simpl in Hm;
  repeat (apply elem_of_cons in Hm as [->|Hm]); [| |by apply elem_of_nil in Hm];
  simpl in Hk; try discriminate Hk;
  simpl in Hr;
  repeat (apply elem_of_cons in Hr as [->|Hr]); try discriminate Hn;
  by apply elem_of_nil in Hr.

Lemma processar_campos_witness :
  exists info, [info_api] !! 0%nat = Some info /\
    j_campeonato info = "soccer_brazil_campeonato" /\
    j_titulo_campeonato info = default "" (jb_sport_title jogo_api) /\
    j_time_casa info = default "" (jb_home_team jogo_api) /\
    j_time_fora info = default "" (jb_away_team jogo_api) /\
    j_data_hora info = default "" (jb_commence_time jogo_api) /\
    j_timestamp_coleta info = "2025-05-04T12:00:01" /\
    map nome (j_casas_apostas info) =
      map (fun cb => default "" (cb_title cb)) (default [] (jb_bookmakers jogo_api)) /\
    j_melhores_odds info = _calcular_melhores_odds (j_casas_apostas info) /\
    _analisar_valor_odds (j_melhores_odds info) = Retorna (j_analise_valor info).
Proof.
  apply (processar_campos [jogo_api] "soccer_brazil_campeonato"
           (fun _ => "2025-05-04T12:00:01") [info_api] 0 jogo_api).
  - vm_compute. reflexivity.
  - reflexivity.
Defined.

Lemma sem_nome_sem_preco_witness :
  item (j_melhores_odds info_api) over_25 = Melhor 0 "".
Proof.
  apply (sem_nome_sem_preco [jogo_api] "soccer_brazil_campeonato"
           (fun _ => "2025-05-04T12:00:01") [info_api] 0 jogo_api info_api over_25).
  - vm_compute. reflexivity.
  - reflexivity.
  - reflexivity.
  - sem_nome_api.
Defined.

Lemma nomes_de_times_witness :
  j_analise_valor info_api = Analise [] 0 "⚡ Aguardando melhores oportunidades".
Proof.
  apply (nomes_de_times_sem_analise [jogo_api] "soccer_brazil_campeonato"
           (fun _ => "2025-05-04T12:00:01") [info_api] 0 jogo_api info_api).
  - vm_compute. reflexivity.
  - reflexivity.
  - reflexivity.
  - intros n Hn.
    repeat (apply elem_of_cons in Hn as [->|Hn]); [| | |by apply elem_of_nil in Hn];
      sem_nome_api.
Defined.

(** ** [obter_jogos_ao_vivo] and [salvar_dados_brasileiros] *)

(** X19.  When the fetch returns games, the request succeeded with status
    200, every game could be read and there is one entry per game.  A failed
    request, another status or an unreadable game give [None].  A response
    with status 200 whose games can all be read and whose prices are all in
    range gives the processed games. *)
Theorem obter_casos (r : option resposta) (campeonato_key : string) (agora : nat -> string) :
  (forall jogos, obter_jogos_ao_vivo r campeonato_key agora = Some jogos ->
     exists resp, r = Some resp /\ status_code resp = 200%Z /\
                  forallb jogo_legivel (json resp) = true /\
                  length jogos = length (json resp)) /\
  (r = None \/
   (exists resp, r = Some resp /\
      (status_code resp <> 200%Z \/ forallb jogo_legivel (json resp) = false)) ->
   obter_jogos_ao_vivo r campeonato_key agora = None) /\
  (forall resp, r = Some resp -> status_code resp = 200%Z ->
     forallb jogo_legivel (json resp) = true -> forallb jogo_ok (json resp) = true ->
     exists jogos, obter_jogos_ao_vivo r campeonato_key agora = Some jogos).
Proof.
  unfold obter_jogos_ao_vivo. destruct r as [resp|].
  - pose proof (processar_retorno (json resp) campeonato_key agora) as H.
    destruct (decide (status_code resp = 200%Z)) as [Hs|Hs].
    + destruct (_processar_jogos_brasileiros (json resp) campeonato_key agora) as [jogos|e].
      * destruct H as [Hl Hlen]. split; [|split].
        -- intros jogos' [= <-]. eauto.
        -- intros [?|(resp' & [= <-] & [?|?])]; congruence.
        -- eauto.
      * destruct H as [_ Hl]. split; [|split]; [done|done|].
        intros resp' [= <-]. congruence.
    + split; [|split]; [done|done|]. intros resp' [= <-]. congruence.
  - split; [|split]; done.
Qed.

Lemma obter_casos_witness :
  exists jogos,
    obter_jogos_ao_vivo resposta_api "soccer_brazil_campeonato" (relogio_exemplo 0)
      = Some jogos.
Proof.
  apply (obter_casos resposta_api "soccer_brazil_campeonato" (relogio_exemplo 0))
    with (resp := Resposta 200 [jogo_api]); reflexivity.
Defined.

Lemma linhas_app (h1 h2 : list info_jogo) :
  linhas (h1 ++ h2) = (linhas h1 ++ linhas h2)%list.
Proof. unfold linhas. apply flat_map_app. Qed.

Lemma linhas_length (h : list info_jogo) :
  length (linhas h) = sum_list (map (fun j => length (j_casas_apostas j)) h).
Proof.
  induction h as [|j h IH]; [done|].
  change (j :: h) with ([j] ++ h)%list at 1. rewrite linhas_app, length_app, IH.
  simpl. by rewrite app_nil_r, length_map.
Qed.

(** X20.  The table written to the CSV file has one row per bookmaker of every
    game of the response, so a game without bookmakers leaves no row. *)
Theorem linhas_uma_por_casa (dados : list jogo_bruto) (campeonato : string)
    (agora : nat -> string) (jogos : list info_jogo) :
  _processar_jogos_brasileiros dados campeonato agora = Retorna jogos ->
  length (linhas jogos) =
  sum_list (map (fun jb => length (default [] (jb_bookmakers jb))) dados).
Proof.
  intros Hret. rewrite linhas_length. f_equal.
  apply list_eq. intros i. rewrite !list_lookup_fmap.
  pose proof (processar_retorno dados campeonato agora) as Hl. rewrite Hret in Hl.
  destruct Hl as [_ Hlen].
  destruct (dados !! i) as [jogo|] eqn:Ei.
  - destruct (processar_lookup _ _ _ _ _ _ Hret Ei) as (info & -> & Hp). simpl. f_equal.
    pose proof (processar_jogo_spec jogo campeonato (agora i)) as H. rewrite Hp in H.
    destruct H as (_ & HF & _). symmetry. by eapply Forall2_length.
  - apply lookup_ge_None in Ei. rewrite <- Hlen in Ei.
    apply lookup_ge_None in Ei. by rewrite Ei.
Qed.

Lemma linhas_uma_por_casa_witness :
  length (linhas [info_api]) =
  sum_list (map (fun jb => length (default [] (jb_bookmakers jb))) [jogo_api]).
Proof.
  apply (linhas_uma_por_casa [jogo_api] "soccer_brazil_campeonato"
           (fun _ => "2025-05-04T12:00:01")).
  vm_compute. reflexivity.
Defined.

(** ** [monitorar_campeonato_brasileiro] *)

Lemma filter_dorme_salvar (h : list info_jogo) (carimbo : string) :
  List.filter e_dorme (salvar_dados_brasileiros h carimbo) = [].
Proof. by destruct h. Qed.

Lemma registrar_history (i : nat) (jogos : option (list info_jogo)) (carimbo : string)
    (s : monitor) :
  odds_history (registrar i jogos carimbo s) = (odds_history s ++ default [] jogos)%list.
Proof.
  destruct jogos as [[|j js]|]; simpl; by rewrite ?app_nil_r.
Qed.

Lemma registrar_dorme (i : nat) (jogos : option (list info_jogo)) (carimbo : string)
    (s : monitor) :
  List.filter e_dorme (eventos (registrar i jogos carimbo s)) = List.filter e_dorme (eventos s).
Proof.
  destruct jogos as [[|j js]|]; simpl; try done.
  rewrite List.filter_app. simpl.
  destruct (decide (Z.of_nat i mod 2 = 0)%Z);
    rewrite ?filter_dorme_salvar, ?app_nil_r; done.
Qed.

(** The loop of the championship monitor with a sleep length that is not
    negative: it completes, the history grows by the batches fetched, and
    it sleeps after every iteration but the last. *)
Lemma iterar_spec (r i : nat) (iteracoes : Z) (campeonato_key : string)
    (intervalo_minutos : Z) (respostas : nat -> option resposta)
    (agora : nat -> nat -> string) (carimbo : nat -> string) (s : monitor) :
  (0 <= intervalo_minutos)%Z ->
  r = 0%nat \/ Z.of_nat (i + r) = iteracoes ->
  exists s',
    iterar r i iteracoes campeonato_key intervalo_minutos respostas agora carimbo s
      = (s', Concluido) /\
    odds_history s' =
      (odds_history s ++ flat_map (lote respostas campeonato_key agora) (seq i r))%list /\
    List.filter e_dorme (eventos s') =
      (List.filter e_dorme (eventos s) ++ replicate (pred r) (Dorme (intervalo_minutos * 60)))%list.
Proof.
  intros Hiv. revert i s. induction r as [|r IH]; intros i s Hr.
  - exists s. simpl. by rewrite !app_nil_r.
  - destruct Hr as [Hr|Hr]; [done|].
    cbn [iterar].
    set (s1 := registrar i _ (carimbo i) s).
    assert (odds_history s1 =
            (odds_history s ++ lote respostas campeonato_key agora i)%list) as H1
      by apply registrar_history.
    assert (List.filter e_dorme (eventos s1) = List.filter e_dorme (eventos s)) as H2
      by apply registrar_dorme.
    destruct (decide (Z.of_nat i < iteracoes - 1)%Z) as [Hlt|Hge].
    + destruct (decide (intervalo_minutos * 60 < 0)%Z) as [Hneg|_]; [lia|].
      destruct (IH (S i) (dormir intervalo_minutos s1)) as (s' & E & Hh & Hd); [right; lia|].
      exists s'. split; [done|]. split.
      * rewrite Hh. simpl. rewrite H1, <- app_assoc. done.
      * rewrite Hd. simpl. rewrite List.filter_app, H2. simpl.
        destruct r as [|r]; [lia|]. simpl. by rewrite <- app_assoc.
    + assert (r = 0%nat) as -> by lia.
      destruct (IH (S i) s1) as (s' & E & Hh & Hd); [by left|].
      exists s'. split; [done|]. split.
      * rewrite Hh. simpl. rewrite H1, <- app_assoc. done.
      * rewrite Hd. simpl. by rewrite H2.
Qed.

Lemma monitorar_spec (campeonato_key : string) (intervalo_minutos iteracoes : Z)
    (teste : option resposta) (respostas : nat -> option resposta)
    (agora : nat -> nat -> string) (carimbo : nat -> string) (carimbo_final : string)
    (s : monitor) :
  testar_api teste = true -> (0 <= intervalo_minutos)%Z ->
  exists s1,
    monitorar_campeonato_brasileiro campeonato_key intervalo_minutos iteracoes teste
      respostas agora carimbo carimbo_final s =
    (Monitor (odds_history s1)
       (eventos s1 ++ salvar_dados_brasileiros (odds_history s1) carimbo_final)%list,
     Concluido) /\
    odds_history s1 =
      (odds_history s ++
       flat_map (lote respostas campeonato_key agora) (seq 0 (Z.to_nat iteracoes)))%list /\
    List.filter e_dorme (eventos s1) =
      (List.filter e_dorme (eventos s) ++
       replicate (pred (Z.to_nat iteracoes)) (Dorme (intervalo_minutos * 60)))%list.
Proof.
  intros Ht Hiv. unfold monitorar_campeonato_brasileiro. rewrite Ht.
  destruct (iterar_spec (Z.to_nat iteracoes) 0 iteracoes campeonato_key intervalo_minutos
              respostas agora carimbo s Hiv) as (s1 & E & Hh & Hd).
  { destruct (decide (iteracoes <= 0)%Z); [left|right]; lia. }
  exists s1. rewrite E. done.
Qed.

(** X21.  When the API test passes, the interval is between 0 and 10^8
    minutes and every price of every response is in range, the history
    after the run is the old history followed by the batches of the
    iterations, in order; a failed fetch adds nothing. *)
Theorem monitorar_historia (campeonato_key : string) (intervalo_minutos iteracoes : Z)
    (teste : option resposta) (respostas : nat -> option resposta)
    (agora : nat -> nat -> string) (carimbo : nat -> string) (carimbo_final : string)
    (s : monitor) :
  testar_api teste = true -> (0 <= intervalo_minutos <= 10 ^ 8)%Z ->
  (forall i resp, respostas i = Some resp -> forallb jogo_ok (json resp) = true) ->
  odds_history
    (monitorar_campeonato_brasileiro campeonato_key intervalo_minutos iteracoes teste
       respostas agora carimbo carimbo_final s).1 =
  (odds_history s ++
   flat_map (lote respostas campeonato_key agora) (seq 0 (Z.to_nat iteracoes)))%list.
Proof.
  intros Ht [Hiv _] _.
  destruct (monitorar_spec campeonato_key intervalo_minutos iteracoes teste respostas
              agora carimbo carimbo_final s Ht Hiv) as (s1 & -> & Hh & _).
  done.
Qed.

(** X22.  The run sleeps once between two iterations and not after the last one:
    [iteracoes - 1] times [intervalo_minutos * 60] seconds, and not at all
    for fewer than two iterations. *)
Theorem monitorar_pausas (campeonato_key : string) (intervalo_minutos iteracoes : Z)
    (teste : option resposta) (respostas : nat -> option resposta)
    (agora : nat -> nat -> string) (carimbo : nat -> string) (carimbo_final : string)
    (s : monitor) :
  testar_api teste = true -> (0 <= intervalo_minutos)%Z ->
  List.filter e_dorme
    (eventos (monitorar_campeonato_brasileiro campeonato_key intervalo_minutos iteracoes
                teste respostas agora carimbo carimbo_final s).1) =
  (List.filter e_dorme (eventos s) ++
   replicate (Z.to_nat (iteracoes - 1)) (Dorme (intervalo_minutos * 60)))%list.
Proof.
  intros Ht Hiv.
  destruct (monitorar_spec campeonato_key intervalo_minutos iteracoes teste respostas
              agora carimbo carimbo_final s Ht Hiv) as (s1 & -> & _ & Hd).
  cbn [fst eventos]. rewrite List.filter_app, filter_dorme_salvar, app_nil_r, Hd.
  by replace (pred (Z.to_nat iteracoes)) with (Z.to_nat (iteracoes - 1)) by lia.
Qed.

(** X23.  The last thing a completed run does is to save: it writes the rows of
    the whole history to a file named after the clock reading, or reports
    that there is nothing to save when the history is empty. *)
Theorem monitorar_salva_no_fim (campeonato_key : string) (intervalo_minutos iteracoes : Z)
    (teste : option resposta) (respostas : nat -> option resposta)
    (agora : nat -> nat -> string) (carimbo : nat -> string) (carimbo_final : string)
    (s : monitor) :
  testar_api teste = true -> (0 <= intervalo_minutos)%Z ->
  last (eventos (monitorar_campeonato_brasileiro campeonato_key intervalo_minutos iteracoes
                   teste respostas agora carimbo carimbo_final s).1) =
  Some (match odds_history
                (monitorar_campeonato_brasileiro campeonato_key intervalo_minutos iteracoes
                   teste respostas agora carimbo carimbo_final s).1 with
        | [] => NadaParaSalvar
        | h => EscreveCsv ("odds_brasileiro_" ++ carimbo_final ++ ".csv") (linhas h)
        end).
Proof.
  intros Ht Hiv.
  destruct (monitorar_spec campeonato_key intervalo_minutos iteracoes teste respostas
              agora carimbo carimbo_final s Ht Hiv) as (s1 & -> & _ & _).
  cbn [fst eventos odds_history].
  destruct (odds_history s1) as [|j h]; simpl; by rewrite last_snoc.
Qed.

Lemma monitorar_historia_witness :
  odds_history
    (monitorar_campeonato_brasileiro "soccer_brazil_campeonato" 20 2 resposta_api
       (fun _ => resposta_api) relogio_exemplo carimbo_exemplo "20250504_1240"
       (Monitor [] [])).1 =
  (odds_history (Monitor [] []) ++
   flat_map (lote (fun _ => resposta_api) "soccer_brazil_campeonato" relogio_exemplo)
     (seq 0 (Z.to_nat 2)))%list.
Proof.
  apply (monitorar_historia "soccer_brazil_campeonato" 20 2 resposta_api
           (fun _ => resposta_api) relogio_exemplo carimbo_exemplo "20250504_1240"
           (Monitor [] [])).
  - reflexivity.
  - lia.
  - intros i resp H. injection H as <-. vm_compute. reflexivity.
Defined.

Lemma monitorar_pausas_witness :
  List.filter e_dorme
    (eventos (monitorar_campeonato_brasileiro "soccer_brazil_campeonato" 20 3 resposta_api
                (fun _ => resposta_api) relogio_exemplo carimbo_exemplo "20250504_1240"
                (Monitor [] [])).1) =
  (List.filter e_dorme (eventos (Monitor [] [])) ++
   replicate (Z.to_nat (3 - 1)) (Dorme (20 * 60)))%list.
Proof.
  apply (monitorar_pausas "soccer_brazil_campeonato" 20 3 resposta_api
           (fun _ => resposta_api) relogio_exemplo carimbo_exemplo "20250504_1240"
           (Monitor [] [])).
  - reflexivity.
  - lia.
Defined.

Lemma monitorar_salva_no_fim_witness :
  last (eventos (monitorar_campeonato_brasileiro "soccer_brazil_campeonato" 20 0 resposta_api
                   (fun _ => resposta_api) relogio_exemplo carimbo_exemplo "20250504_1240"
                   (Monitor [] [])).1) =
  Some (match odds_history
                (monitorar_campeonato_brasileiro "soccer_brazil_campeonato" 20 0 resposta_api
                   (fun _ => resposta_api) relogio_exemplo carimbo_exemplo "20250504_1240"
                   (Monitor [] [])).1 with
        | [] => NadaParaSalvar
        | h => EscreveCsv ("odds_brasileiro_" ++ "20250504_1240" ++ ".csv") (linhas h)
        end).
Proof.
  apply (monitorar_salva_no_fim "soccer_brazil_campeonato" 20 0 resposta_api
           (fun _ => resposta_api) relogio_exemplo carimbo_exemplo "20250504_1240"
           (Monitor [] [])).
  - reflexivity.
  - lia.
Defined.

(** ** [monitor_odds] *)

Lemma anotar_history (leitura : option snapshot) (s : bet_monitor) :
  bm_odds_history (anotar leitura s) = (bm_odds_history s ++ omap id [leitura])%list.
Proof. destruct leitura; simpl; by rewrite ?app_nil_r. Qed.

Lemma anotar_pausa (leitura : option snapshot) (s : bet_monitor) :
  List.filter e_pausa (sinais (anotar leitura s)) = List.filter e_pausa (sinais s).
Proof.
  destruct leitura; simpl; [|done]. rewrite List.filter_app. simpl. by rewrite app_nil_r.
Qed.

Lemma parar_Some (z : Z) (i : nat) :
  z <> 0%Z -> parar (Some z) i = bool_decide (z <= Z.of_nat i)%Z.
Proof.
  intros Hz. unfold parar.
  rewrite (proj2 (Z.eqb_neq z 0)) by done. simpl.
  destruct (Z.leb_spec z (Z.of_nat i)).
  - by rewrite bool_decide_eq_true_2.
  - rewrite bool_decide_eq_false_2; [done|lia].
Qed.

Lemma laco_spec (r i fuel : nat) (max_sleep : Z) (leituras : nat -> option snapshot)
    (interval_minutes z : Z) (s : bet_monitor) :
  z <> 0%Z -> (0 <= interval_minutes * 60 <= max_sleep)%Z ->
  (i + r)%nat = Z.to_nat z -> (r < fuel)%nat ->
  exists s',
    laco fuel max_sleep leituras interval_minutes (Some z) i s = Some (s', Parou) /\
    bm_odds_history s' = (bm_odds_history s ++ omap leituras (seq i r))%list /\
    List.filter e_pausa (sinais s') =
      (List.filter e_pausa (sinais s) ++ replicate r (Pausa (interval_minutes * 60)))%list.
Proof.
  intros Hz Hiv. revert i fuel s. induction r as [|r IH]; intros i fuel s Hir Hf.
  - destruct fuel as [|fuel]; [lia|]. cbn [laco].
    rewrite parar_Some, bool_decide_eq_true_2 by (done || lia).
    exists s. simpl. by rewrite !app_nil_r.
  - destruct fuel as [|fuel]; [lia|]. cbn [laco].
    rewrite parar_Some, bool_decide_eq_false_2 by (done || lia).
    destruct (decide (interval_minutes * 60 < 0)%Z) as [?|_]; [lia|].
    destruct (decide (max_sleep < interval_minutes * 60)%Z) as [?|_]; [lia|].
    destruct (IH (S i) fuel
                (BetMonitor (bm_odds_history (anotar (leituras i) s))
                   (sinais (anotar (leituras i) s) ++ [Pausa (interval_minutes * 60)])))
      as (s' & E & Hh & Hp); [lia..|].
    exists s'. split; [done|]. split.
    + rewrite Hh. cbn [bm_odds_history]. rewrite anotar_history, <- app_assoc.
      f_equal. simpl. by destruct (leituras i).
    + rewrite Hp. cbn [sinais]. rewrite List.filter_app, anotar_pausa. simpl.
      by rewrite <- app_assoc.
Qed.

Lemma laco_nao_para (fuel i : nat) (max_sleep : Z) (leituras : nat -> option snapshot)
    (interval_minutes : Z) (max_iterations : option Z) (s : bet_monitor) :
  max_iterations = None \/ max_iterations = Some 0%Z ->
  (0 <= interval_minutes * 60 <= max_sleep)%Z ->
  laco fuel max_sleep leituras interval_minutes max_iterations i s = None.
Proof.
  intros Hmax Hiv. revert i s. induction fuel as [|fuel IH]; intros i s; [done|].
  cbn [laco].
  assert (parar max_iterations i = false) as -> by (by destruct Hmax as [->| ->]).
  destruct (decide (interval_minutes * 60 < 0)%Z) as [?|_]; [lia|].
  destruct (decide (max_sleep < interval_minutes * 60)%Z) as [?|_]; [lia|].
  apply IH.
Qed.

(** A length that [time.sleep] rejects ends the loop in its first
    iteration, after the reading has been recorded: a negative one by
    [ValueError], one above the largest accepted by [OverflowError]. *)
Lemma monitor_odds_sleep_raises (fuel : nat) (max_sleep : Z)
    (leituras : nat -> option snapshot) (interval_minutes : Z) (max_iterations : option Z)
    (s : bet_monitor) :
  parar max_iterations 0 = false ->
  ((interval_minutes * 60 < 0)%Z ->
   monitor_odds (S fuel) max_sleep leituras interval_minutes max_iterations s =
     Some (anotar (leituras 0%nat) s, SleepValueError)) /\
  ((0 <= interval_minutes * 60)%Z -> (max_sleep < interval_minutes * 60)%Z ->
   monitor_odds (S fuel) max_sleep leituras interval_minutes max_iterations s =
     Some (anotar (leituras 0%nat) s, SleepOverflowError)).
Proof.
  intros Hp. unfold monitor_odds. cbn [laco]. rewrite Hp. split.
  - intros Hneg. by destruct (decide (interval_minutes * 60 < 0)%Z).
  - intros Hpos Hbig.
    destruct (decide (interval_minutes * 60 < 0)%Z); [lia|].
    by destruct (decide (max_sleep < interval_minutes * 60)%Z).
Qed.

(** X24.  With [max_iterations] other than 0 and a sleep length that
    [time.sleep] accepts (not negative and not above [max_sleep]), the loop
    stops after [max_iterations] iterations (none for a negative value): the
    history grows by the readings that succeeded, in order, and the monitor
    sleeps once per iteration, the last one included. *)
Theorem monitor_odds_para (fuel : nat) (max_sleep : Z) (leituras : nat -> option snapshot)
    (interval_minutes max_iterations : Z) (s : bet_monitor) :
  max_iterations <> 0%Z -> (0 <= interval_minutes * 60 <= max_sleep)%Z ->
  (Z.to_nat max_iterations < fuel)%nat ->
  exists s',
    monitor_odds fuel max_sleep leituras interval_minutes (Some max_iterations) s
      = Some (s', Parou) /\
    bm_odds_history s' =
      (bm_odds_history s ++ omap leituras (seq 0 (Z.to_nat max_iterations)))%list /\
    List.filter e_pausa (sinais s') =
      (List.filter e_pausa (sinais s) ++
       replicate (Z.to_nat max_iterations) (Pausa (interval_minutes * 60)))%list.
Proof.
  intros Hz Hiv Hf. unfold monitor_odds. by apply laco_spec.
Qed.

Lemma monitor_odds_para_witness :
  exists s',
    monitor_odds 5 9223372036
      (fun i => if decide (i = 1%nat) then None
                else Some (instantaneo [("home", 2.10)] (Z.of_nat i)))
      5 (Some 3%Z) (BetMonitor [] []) = Some (s', Parou) /\
    bm_odds_history s' =
      (bm_odds_history (BetMonitor [] []) ++
       omap (fun i => if decide (i = 1%nat) then None
                      else Some (instantaneo [("home", 2.10)] (Z.of_nat i)))
         (seq 0 (Z.to_nat 3)))%list /\
    List.filter e_pausa (sinais s') =
      (List.filter e_pausa (sinais (BetMonitor [] [])) ++
       replicate (Z.to_nat 3) (Pausa (5 * 60)))%list.
Proof.
  apply (monitor_odds_para 5 9223372036 _ 5 3 (BetMonitor [] [])).
  - discriminate.
  - lia.
  - simpl. lia.
Defined.

(** X25.  Without [max_iterations], and also with [max_iterations = 0], and
    with a sleep length that [time.sleep] accepts (not negative and not
    above [max_sleep]), the loop does not stop: however many iterations are
    looked at, it is still running. *)
Theorem monitor_odds_nao_para (fuel : nat) (max_sleep : Z)
    (leituras : nat -> option snapshot) (interval_minutes : Z) (max_iterations : option Z)
    (s : bet_monitor) :
  max_iterations = None \/ max_iterations = Some 0%Z ->
  (0 <= interval_minutes * 60 <= max_sleep)%Z ->
  monitor_odds fuel max_sleep leituras interval_minutes max_iterations s = None.
Proof. intros Hmax Hiv. by apply laco_nao_para. Qed.

Lemma monitor_odds_nao_para_witness :
  monitor_odds 1000 9223372036 (fun _ => None) 5 (Some 0%Z) (BetMonitor [] []) = None.
Proof.
  apply (monitor_odds_nao_para 1000 9223372036 (fun _ => None) 5 (Some 0%Z)
           (BetMonitor [] [])).
  - right. reflexivity.
  - lia.
Defined.
